(** * Surveillance tool servers and orchestration agent: a shallow embedding

    The development follows the layout of the repository:

    - [Py]          the Python values, strings and exceptions the code manipulates;
    - [Agent]       [src/agents/langgraph_agent.py]: the HTTP tool client and the
                    five-stage pipeline;
    - [Neo4jServer] [src/servers/gms_neo4j_mcp_server.py]: the graph query tools;
    - [RestServer]  [src/servers/gms_rest_api_mcp_server.py]: the REST passthrough
                    tools.

    Strings are sequences of code points below 256 (ASCII and Latin-1), which
    is the range on which [str.lower], [str.split], [str.strip] and
    [str.isdigit] are written out here. *)

From Stdlib Require Import String Ascii List ZArith NArith Lia Bool.
From Stdlib Require Import Sorted Permutation DecimalString SpecFloat.
Import ListNotations.

Open Scope string_scope.
Open Scope Z_scope.

(** ** Python values *)

Module Py.

(** *** Characters and strings *)

Definition code (c : ascii) : N := N_of_ascii c.

(** [str.lower] on one code point: A-Z and the Latin-1 capitals
    U+00C0..U+00DE (U+00D7, the multiplication sign, is not a letter). *)
Definition chr_lower (c : ascii) : ascii :=
  let n := code c in
  if (((65 <=? n) && (n <=? 90)) ||
      ((192 <=? n) && (n <=? 222) && negb (n =? 215)))%N
  then ascii_of_N (n + 32) else c.

Fixpoint lower (s : string) : string :=
  match s with
  | EmptyString => EmptyString
  | String c t => String (chr_lower c) (lower t)
  end.

(** [str.isspace] on one code point: TAB..CR, FS..US, space, NEL, NBSP. *)
Definition isspace (c : ascii) : bool :=
  let n := code c in
  (((9 <=? n) && (n <=? 13)) || ((28 <=? n) && (n <=? 32)) ||
   (n =? 133) || (n =? 160))%N.

(** [str.isdigit] on one code point: 0-9 and the superscripts 1, 2, 3. *)
Definition isdigit (c : ascii) : bool :=
  let n := code c in
  (((48 <=? n) && (n <=? 57)) || (n =? 178) || (n =? 179) || (n =? 185))%N.

(** [needle in hay] *)
Fixpoint str_in (needle hay : string) : bool :=
  if prefix needle hay then true
  else match hay with
       | EmptyString => false
       | String _ t => str_in needle t
       end.

(** [bool(s)] for a string *)
Definition nonempty (s : string) : bool :=
  match s with EmptyString => false | _ => true end.

Definition flush (acc : string) : list string :=
  if nonempty acc then [acc] else [].

(** [s.split()]: maximal runs of non-space characters, [acc] being the run
    read so far. *)
Fixpoint split_from (acc s : string) : list string :=
  match s with
  | EmptyString => flush acc
  | String c t =>
      if isspace c then flush acc ++ split_from EmptyString t
      else split_from (acc ++ String c EmptyString) t
  end.

Definition split (s : string) : list string := split_from EmptyString s.

(** [s.split(sep)] for a one-character separator: empty fields are kept. *)
Fixpoint split_on_from (sep : ascii) (acc s : string) : list string :=
  match s with
  | EmptyString => [acc]
  | String c t =>
      if Ascii.eqb c sep then acc :: split_on_from sep EmptyString t
      else split_on_from sep (acc ++ String c EmptyString) t
  end.

Definition split_on (sep : ascii) (s : string) : list string :=
  split_on_from sep EmptyString s.

Fixpoint lstrip (s : string) : string :=
  match s with
  | String c t => if isspace c then lstrip t else s
  | EmptyString => EmptyString
  end.

Fixpoint rstrip (s : string) : string :=
  match s with
  | EmptyString => EmptyString
  | String c t =>
      match rstrip t with
      | EmptyString => if isspace c then EmptyString else String c EmptyString
      | t' => String c t'
      end
  end.

(** [s.strip()] *)
Definition strip (s : string) : string := rstrip (lstrip s).

(** [s[:n]] *)
Definition take (n : nat) (s : string) : string := substring 0 n s.

Fixpoint any_char (p : ascii -> bool) (s : string) : bool :=
  match s with
  | EmptyString => false
  | String c t => p c || any_char p t
  end.

(** [str(n)] for an [int] *)
Definition str_of_int (z : Z) : string := NilZero.string_of_int (Z.to_int z).

Definition LF : ascii := ascii_of_N 10.

(** *** Values: what JSON bodies, keyword arguments and tool payloads hold.
    A [dict] is an association list in insertion order. *)

#[warnings="-register-all"]
Inductive value : Type :=
| VNone
| VBool (b : bool)
| VInt (z : Z)
| VFloat (f : spec_float)
| VStr (s : string)
| VList (l : list value)
| VDict (d : list (string * value)).

Definition dict := list (string * value).

(** [d.get(k)] *)
Fixpoint dict_get (k : string) (d : dict) : option value :=
  match d with
  | [] => None
  | (k', v) :: d' => if String.eqb k k' then Some v else dict_get k d'
  end.

(** [d[k] = v]: an existing key keeps its position. *)
Fixpoint dict_set (k : string) (v : value) (d : dict) : dict :=
  match d with
  | [] => [(k, v)]
  | (k', v') :: d' =>
      if String.eqb k k' then (k, v) :: d' else (k', v') :: dict_set k v d'
  end.

Definition dict_keys (d : dict) : list string := map fst d.

Definition float_is_zero (f : spec_float) : bool :=
  match f with S754_zero _ => true | _ => false end.

(** [bool(v)] *)
Definition truthy (v : value) : bool :=
  match v with
  | VNone => false
  | VBool b => b
  | VInt z => negb (z =? 0)
  | VFloat f => negb (float_is_zero f)
  | VStr s => nonempty s
  | VList l => match l with [] => false | _ => true end
  | VDict d => match d with [] => false | _ => true end
  end.

(** [type(v).__name__] *)
Definition type_name (v : value) : string :=
  match v with
  | VNone => "NoneType"
  | VBool _ => "bool"
  | VInt _ => "int"
  | VFloat _ => "float"
  | VStr _ => "str"
  | VList _ => "list"
  | VDict _ => "dict"
  end.

(** *** Exceptions.  [exn_str] is [str(e)]. *)

Record exn : Type := Exn { exn_class : string; exn_str : string }.

Inductive result (A : Type) : Type :=
| Ok (a : A)
| Raise (e : exn).
Arguments Ok {A} a.
Arguments Raise {A} e.

Definition rbind {A B} (r : result A) (k : A -> result B) : result B :=
  match r with
  | Ok a => k a
  | Raise e => Raise e
  end.

(** [v.get(k)] on an arbitrary value: only a [dict] has the method. *)
Definition method_get (v : value) (k : string) : result (option value) :=
  match v with
  | VDict d => Ok (dict_get k d)
  | _ => Raise (Exn "AttributeError"
                  ("'" ++ type_name v ++ "' object has no attribute 'get'"))
  end.

(** [v[0]] *)
Definition item0 (v : value) : result value :=
  match v with
  | VList (x :: _) => Ok x
  | VList [] => Raise (Exn "IndexError" "list index out of range")
  | VStr (String c _) => Ok (VStr (String c EmptyString))
  | VStr EmptyString => Raise (Exn "IndexError" "string index out of range")
  | VDict _ => Raise (Exn "KeyError" "0")
  | _ => Raise (Exn "TypeError"
                  ("'" ++ type_name v ++ "' object is not subscriptable"))
  end.

(** *** HTTP responses: the status and the outcome of
    [await response.json()]. *)
Record response : Type := Response { status : Z; json : result value }.

(** *** Boolean equality, used by [DISTINCT] and by grouping *)

Class Eqb (A : Type) : Type := eqb : A -> A -> bool.

#[export] Instance Eqb_string : Eqb string := String.eqb.
#[export] Instance Eqb_Z : Eqb Z := Z.eqb.
#[export] Instance Eqb_N : Eqb N := N.eqb.
#[export] Instance Eqb_nat : Eqb nat := Nat.eqb.
#[export] Instance Eqb_bool : Eqb bool := Bool.eqb.

#[export] Instance Eqb_option {A} `{Eqb A} : Eqb (option A) :=
  fun a b =>
    match a, b with
    | Some x, Some y => eqb x y
    | None, None => true
    | _, _ => false
    end.

#[export] Instance Eqb_prod {A B} `{Eqb A} `{Eqb B} : Eqb (A * B) :=
  fun a b => eqb (fst a) (fst b) && eqb (snd a) (snd b).

Fixpoint list_eqb {A} `{Eqb A} (l m : list A) : bool :=
  match l, m with
  | [], [] => true
  | x :: l', y :: m' => eqb x y && list_eqb l' m'
  | _, _ => false
  end.

#[export] Instance Eqb_list {A} `{Eqb A} : Eqb (list A) := list_eqb.

Definition float_eqb (a b : spec_float) : bool :=
  match a, b with
  | S754_zero s, S754_zero s' => Bool.eqb s s'
  | S754_infinity s, S754_infinity s' => Bool.eqb s s'
  | S754_nan, S754_nan => true
  | S754_finite s m e, S754_finite s' m' e' =>
      Bool.eqb s s' && (m =? m')%positive && (e =? e')
  | _, _ => false
  end.

Fixpoint value_eqb (a b : value) : bool :=
  match a, b with
  | VNone, VNone => true
  | VBool x, VBool y => Bool.eqb x y
  | VInt x, VInt y => x =? y
  | VFloat x, VFloat y => float_eqb x y
  | VStr x, VStr y => String.eqb x y
  | VList x, VList y =>
      (fix go (x y : list value) : bool :=
         match x, y with
         | [], [] => true
         | a :: x', b :: y' => value_eqb a b && go x' y'
         | _, _ => false
         end) x y
  | VDict x, VDict y =>
      (fix go (x y : list (string * value)) : bool :=
         match x, y with
         | [], [] => true
         | (k, a) :: x', (k', b) :: y' =>
             String.eqb k k' && value_eqb a b && go x' y'
         | _, _ => false
         end) x y
  | _, _ => false
  end.

#[export] Instance Eqb_value : Eqb value := value_eqb.

Definition mem {A} `{Eqb A} (x : A) (l : list A) : bool := existsb (eqb x) l.

(** The first occurrence of each element, in order. *)
Fixpoint distinct_from {A} `{Eqb A} (seen l : list A) : list A :=
  match l with
  | [] => []
  | x :: l' =>
      if mem x seen then distinct_from seen l'
      else x :: distinct_from (x :: seen) l'
  end.

Definition distinct {A} `{Eqb A} (l : list A) : list A := distinct_from [] l.

(** Grouping of keyed rows: one group per key, in order of first
    appearance, each with its rows' values in order. *)
Fixpoint add_to_group {K V} `{Eqb K} (k : K) (v : V) (g : list (K * list V))
  : list (K * list V) :=
  match g with
  | [] => [(k, [v])]
  | (k', vs) :: g' =>
      if eqb k k' then (k', (vs ++ [v])%list) :: g'
      else (k', vs) :: add_to_group k v g'
  end.

Definition group_by {K V} `{Eqb K} (rows : list (K * V)) : list (K * list V) :=
  fold_left (fun g kv => add_to_group (fst kv) (snd kv) g) rows [].

(** Sorting by insertion; [le x y] says that [x] may come before [y]. *)
Fixpoint insert {A} (le : A -> A -> bool) (x : A) (l : list A) : list A :=
  match l with
  | [] => [x]
  | y :: l' => if le x y then x :: l else y :: insert le x l'
  end.

Definition sort {A} (le : A -> A -> bool) (l : list A) : list A :=
  fold_right (insert le) [] l.

End Py.

(** ** The orchestration agent ([src/agents/langgraph_agent.py]) *)

Module Agent.
Import Py.

Notation "x <~ c ;; k" := (rbind c (fun x => k))
  (at level 61, c at next level, right associativity).

(** *** [FastMCPClient] *)

(** A client is its base URL and its HTTP session; the session's [post]
    takes the URL, the JSON payload and the headers, and either raises or
    yields a response. *)
Record FastMCPClient : Type := Client {
  base_url : string;
  session_post : string -> value -> dict -> result response
}.

Definition tools_call_payload (tool_name : string) (kwargs : dict) : value :=
  VDict [("jsonrpc", VStr "2.0");
         ("id", VInt 1);
         ("method", VStr "tools/call");
         ("params", VDict [("name", VStr tool_name);
                           ("arguments", VDict kwargs)])].

Definition get_or (v : value) (k : string) (default : value) : result value :=
  r <~ method_get v k ;;
  Ok (match r with Some x => x | None => default end).

(** The body of the [try] block of [call_tool]. *)
Definition call_tool_try (self : FastMCPClient) (tool_name : string)
    (kwargs : dict) : result value :=
  response <~ session_post self (base_url self ++ "/mcp")
                (tools_call_payload tool_name kwargs)
                [("Content-Type", VStr "application/json")] ;;
  if status response =? 200 then
    result_ <~ json response ;;
    cond <~ get_or result_ "result" VNone ;;
    if truthy cond then
      seq <~ get_or result_ "result" (VList [VDict []]) ;;
      item0 seq
    else Ok (VDict [])
  else
    Ok (VDict [("error",
                VStr ("HTTP error: " ++ str_of_int (status response)))]).

(** [call_tool]: whatever the [try] block raises is caught by
    [except Exception] and turned into a payload. *)
Definition call_tool (self : FastMCPClient) (tool_name : string)
    (kwargs : dict) : result value :=
  match call_tool_try self tool_name kwargs with
  | Ok v => Ok v
  | Raise e => Ok (VDict [("error", VStr ("Connection error: " ++ exn_str e))])
  end.

Definition tools_list_payload : value :=
  VDict [("jsonrpc", VStr "2.0");
         ("id", VInt 1);
         ("method", VStr "tools/list");
         ("params", VDict [])].

(** The body of the [try] block of [list_tools]. *)
Definition list_tools_try (self : FastMCPClient) : result value :=
  response <~ session_post self (base_url self ++ "/mcp") tools_list_payload
                [("Content-Type", VStr "application/json")] ;;
  if status response =? 200 then
    result_ <~ json response ;;
    inner <~ get_or result_ "result" (VDict []) ;;
    get_or inner "tools" (VList [])
  else Ok (VList []).

(** [list_tools]: an exception is printed and an empty list returned. *)
Definition list_tools (self : FastMCPClient) : value :=
  match list_tools_try self with
  | Ok v => v
  | Raise _ => VList []
  end.

(** *** The pipeline monad: a stage may raise, and the tool calls issued so
    far are recorded. *)

Record rpc_call : Type := Call {
  call_url : string;
  call_tool_name : string;
  call_arguments : dict
}.

Definition M (A : Type) : Type := list rpc_call -> result A * list rpc_call.

Definition ret {A} (a : A) : M A := fun tr => (Ok a, tr).

Definition bind {A B} (c : M A) (k : A -> M B) : M B :=
  fun tr =>
    match c tr with
    | (Ok a, tr') => k a tr'
    | (Raise e, tr') => (Raise e, tr')
    end.

Definition lift {A} (r : result A) : M A := fun tr => (r, tr).

Notation "x <- c ;; k" := (bind c (fun x => k))
  (at level 61, c at next level, right associativity).

(** [await client.call_tool(tool_name, **kwargs)] inside a stage. *)
Definition await_call_tool (client : FastMCPClient) (tool_name : string)
    (kwargs : dict) : M value :=
  fun tr =>
    (call_tool client tool_name kwargs,
     (tr ++ [Call (base_url client) tool_name kwargs])%list).

(** *** [SurveillanceState] *)

Record SurveillanceState : Type := State {
  messages : list value;
  query : string;
  neo4j_data : dict;
  api_data : dict;
  analysis : string;
  insights : list string
}.

Definition set_messages (m : list value) (s : SurveillanceState) :=
  State m (query s) (neo4j_data s) (api_data s) (analysis s) (insights s).
Definition set_neo4j_data (d : dict) (s : SurveillanceState) :=
  State (messages s) (query s) d (api_data s) (analysis s) (insights s).
Definition set_api_data (d : dict) (s : SurveillanceState) :=
  State (messages s) (query s) (neo4j_data s) d (analysis s) (insights s).
Definition set_analysis (a : string) (s : SurveillanceState) :=
  State (messages s) (query s) (neo4j_data s) (api_data s) a (insights s).
Definition set_insights (i : list string) (s : SurveillanceState) :=
  State (messages s) (query s) (neo4j_data s) (api_data s) (analysis s) i.

Definition state_value (s : SurveillanceState) : value :=
  VDict [("messages", VList (messages s));
         ("query", VStr (query s));
         ("neo4j_data", VDict (neo4j_data s));
         ("api_data", VDict (api_data s));
         ("analysis", VStr (analysis s));
         ("insights", VList (map VStr (insights s)))].

(** *** [_extract_trader_name] *)

(** The [for i, word in enumerate(words)] loop, [rest] being the words from
    index [i] on. *)
Fixpoint extract_loop (words : list string) (i : nat) (rest : list string)
  : option string :=
  match rest with
  | [] => None
  | word :: rest' =>
      if String.eqb (lower word) "trader" && (i + 1 <? length words)%nat
      then Some (nth (i + 1) words EmptyString)
      else extract_loop words (i + 1) rest'
  end.

Definition _extract_trader_name (query : string) : string :=
  if str_in "bill lyons" (lower query) then "Bill Lyons"
  else if str_in "trader" query then
    let words := split query in
    match extract_loop words 0 words with
    | Some w => w
    | None => ""
    end
  else "".

(** *** [SurveillanceAgent]

    The language model is an oracle from the messages sent (kind and
    content) to the reply's content, or to the exception [ainvoke] raises. *)

Record SurveillanceAgent : Type := Agent_ {
  llm_ainvoke : list (string * string) -> result string;
  neo4j_client : FastMCPClient;
  api_client : FastMCPClient
}.

Definition SystemMessage (content : string) := ("system", content).
Definition HumanMessage (content : string) := ("human", content).

Definition parse_system_prompt : string := "
        You are a surveillance query parser. Extract the following from user queries:
        1. Trader names mentioned
        2. Alert types of interest
        3. Time periods
        4. Specific analysis requested
        
        Respond in JSON format with extracted entities.
        ".

Definition analysis_prompt_head : string := "
        Analyze the following surveillance data for patterns and insights:
        
        Historical Data from Neo4j:
        ".

Definition analysis_prompt_mid : string := "
        
        Real-time Data from API:
        ".

Definition analysis_prompt_tail : string := "
        
        Provide a comprehensive analysis focusing on:
        1. Alert patterns and trends
        2. Risk assessment for traders involved
        3. Notable findings or red flags
        4. Behavioral patterns
        5. Recommendations for surveillance team
        ".

Definition insights_prompt_head : string := "
        Based on this surveillance analysis:
        ".

Definition insights_prompt_tail : string := "
        
        Generate specific, actionable insights for the surveillance team:
        1. Immediate risks requiring attention
        2. Patterns that suggest coordinated activity
        3. Recommended investigative actions
        4. Priority levels for different alerts
        5. Potential regulatory implications
        
        Format as a numbered list of clear, actionable insights.
        ".

Section Pipeline.

(** [json.dumps(v, indent=2)] of the Python standard library. *)
Variable json_dumps : value -> string.

Variable self : SurveillanceAgent.

Definition stage : Type := SurveillanceState -> M SurveillanceState.

Definition _parse_query : stage := fun state =>
  let query := query state in
  content <- lift (llm_ainvoke self
                     [SystemMessage parse_system_prompt;
                      HumanMessage ("Parse this query: " ++ query)]) ;;
  ret (set_messages
         (messages state ++
          [VDict [("role", VStr "system");
                  ("content", VStr ("Parsed query: " ++ content))]])%list
         state).

Definition _fetch_neo4j_data : stage := fun state =>
  let query := lower (query state) in
  let client := neo4j_client self in
  if str_in "bill lyons" query
     || existsb (fun name => str_in name query) ["trader"; "alerts"] then
    let trader_name := _extract_trader_name query in
    if nonempty trader_name then
      alerts_data <- await_call_tool client "get_alerts_for_trader"
                       [("trader_name", VStr trader_name);
                        ("limit", VInt 20)] ;;
      network_data <- await_call_tool client "get_trader_network"
                        [("trader_name", VStr trader_name);
                         ("depth", VInt 2)] ;;
      ret (set_neo4j_data [("alerts", alerts_data);
                           ("network", network_data)] state)
    else ret state
  else if str_in "spoofing" query then
    spoofing_data <- await_call_tool client "get_alerts_by_type"
                       [("misconduct_type", VStr "spoofing");
                        ("limit", VInt 15)] ;;
    ret (set_neo4j_data [("spoofing_alerts", spoofing_data)] state)
  else if str_in "wash trading" query then
    wash_data <- await_call_tool client "get_alerts_by_type"
                   [("misconduct_type", VStr "wash_trading");
                    ("limit", VInt 15)] ;;
    ret (set_neo4j_data [("wash_trading_alerts", wash_data)] state)
  else ret state.

Definition _fetch_api_data : stage := fun state =>
  let client := api_client self in
  real_time_data <- await_call_tool client "get_real_time_alerts"
                      [("status", VStr "active"); ("limit", VInt 10)] ;;
  let state := set_api_data [("real_time_alerts", real_time_data)] state in
  let query := lower (query state) in
  if str_in "bill lyons" query then
    trader_profile <- await_call_tool client "get_trader_profile"
                        [("trader_id", VStr "Bill Lyons")] ;;
    ret (set_api_data (dict_set "trader_profile" trader_profile
                         (api_data state)) state)
  else ret state.

Definition _analyze_data : stage := fun state =>
  let neo4j_data := neo4j_data state in
  let api_data := api_data state in
  let analysis_prompt :=
    analysis_prompt_head ++ json_dumps (VDict neo4j_data) ++
    analysis_prompt_mid ++ json_dumps (VDict api_data) ++
    analysis_prompt_tail in
  content <- lift (llm_ainvoke self
                     [SystemMessage "You are an expert market surveillance analyst. Provide detailed analysis of trading data and alert patterns.";
                      HumanMessage analysis_prompt]) ;;
  ret (set_analysis content state).

(** [any(char.isdigit() for char in line[:3])] *)
Definition numbered (line : string) : bool := any_char isdigit (take 3 line).

Definition parse_insights (insights_text : string) : list string :=
  map strip
    (filter (fun line => nonempty (strip line) && numbered line)
       (split_on LF insights_text)).

Definition _generate_insights : stage := fun state =>
  let analysis := analysis state in
  let insights_prompt :=
    insights_prompt_head ++ analysis ++ insights_prompt_tail in
  content <- lift (llm_ainvoke self
                     [SystemMessage "Generate clear, actionable surveillance insights that help the compliance team prioritize their work.";
                      HumanMessage insights_prompt]) ;;
  ret (set_insights (parse_insights content) state).

(** *** The compiled graph

    LangGraph runs a compiled graph step by step.  The nodes of a step all
    receive the state the step starts from, and what each returns is
    written back key by key.  The edges of [_create_graph] give four
    steps: [parse_query]; then [fetch_neo4j_data] and [fetch_api_data]
    together, the two targets of [parse_query]; then [analyze_data]; then
    [generate_insights].  Within the fetch step a [schedule] fixes which
    node issues its tool calls first; what is proved of a run below holds
    for both, and speaks of which calls were issued, not of their order.

    Every node here returns the whole state, so it writes every key of
    [SurveillanceState]; no key declares a reducer, and a key written by
    two nodes of one step makes the runtime raise [InvalidUpdateError],
    the exception [invalid_update] below. *)

Variable invalid_update : exn.

Definition raise {A} (e : exn) : M A := fun tr => (Raise e, tr).

Inductive schedule : Type := GraphThenRest | RestThenGraph.

Definition fetch_stages (sch : schedule) : list stage :=
  match sch with
  | GraphThenRest => [_fetch_neo4j_data; _fetch_api_data]
  | RestThenGraph => [_fetch_api_data; _fetch_neo4j_data]
  end.

Definition steps (sch : schedule) : list (list stage) :=
  [[_parse_query]; fetch_stages sch; [_analyze_data]; [_generate_insights]].

(** The nodes of one step, each run on the state the step starts from. *)
Fixpoint run_nodes (l : list stage) (state : SurveillanceState)
  : M (list SurveillanceState) :=
  match l with
  | [] => ret []
  | f :: l' =>
      update <- f state ;;
      updates <- run_nodes l' state ;;
      ret (update :: updates)
  end.

(** Writing the returned states back: one is taken as the new state, two
    or more collide. *)
Definition apply_writes (updates : list SurveillanceState)
    (state : SurveillanceState) : M SurveillanceState :=
  match updates with
  | [] => ret state
  | [update] => ret update
  | _ => raise invalid_update
  end.

Definition step (l : list stage) (state : SurveillanceState)
  : M SurveillanceState :=
  updates <- run_nodes l state ;;
  apply_writes updates state.

Fixpoint run_steps (l : list (list stage)) (state : SurveillanceState)
  : M SurveillanceState :=
  match l with
  | [] => ret state
  | nodes :: l' => state' <- step nodes state ;; run_steps l' state'
  end.

(** [self.graph.ainvoke(initial_state)] *)
Definition graph_ainvoke (sch : schedule) : stage := run_steps (steps sch).

Definition initial_state (query : string) : SurveillanceState :=
  State [] query [] [] "" [].

(** *** [process_query]: the [try]/[except Exception] around the run. *)
Definition process_query (sch : schedule) (query : string)
  : list rpc_call -> value * list rpc_call :=
  fun tr =>
    match graph_ainvoke sch (initial_state query) tr with
    | (Ok result_, tr') => (state_value result_, tr')
    | (Raise e, tr') =>
        (VDict [("error", VStr ("Error processing query: " ++ exn_str e));
                ("query", VStr query);
                ("insights",
                 VList [VStr ("Failed to process query: " ++ exn_str e)])],
         tr')
    end.

End Pipeline.

End Agent.

(** ** The graph query tools ([src/servers/gms_neo4j_mcp_server.py]) *)

Module Neo4jServer.
Import Py.

Notation "x <~ c ;; k" := (rbind c (fun x => k))
  (at level 61, c at next level, right associativity).

(** *** The graph store

    Nodes carry an identity and the properties the queries read; a date or
    time is its ordinal.  Relationships are pairs (start, end) of node
    identities; a [TRADES_WITH] relationship also has an identity of its own
    and properties. *)

Definition node_id : Type := N.

Record Trader : Type := mkTrader { name : string }.

Record Alert : Type := mkAlert {
  alert_id : string;
  alert_type : string;
  created_date : Z;
  status : string
}.

Record Workflow : Type := mkWorkflow {
  commentary : string;
  disposition : string;
  supervisor : string;
  review_date : Z
}.

Record Order : Type := mkOrder {
  order_id : string;
  asset_type : string;
  venue_mic : string;
  visible_usd_quantity : Z;
  placed_time : Z;
  cancelled_time : option Z;
  executed_time : option Z;
  is_algo : bool
}.

Record Rel : Type := mkRel {
  rel_id : N;
  rel_start : node_id;
  rel_end : node_id;
  rel_properties : dict
}.

Record Store : Type := mkStore {
  traders : list (node_id * Trader);
  alerts : list (node_id * Alert);
  workflows : list (node_id * Workflow);
  orders : list (node_id * Order);
  INVOLVED_IN : list (node_id * node_id);
  HAS_WORKFLOW : list (node_id * node_id);
  CONTAINS : list (node_id * node_id);
  TRADES_WITH : list Rel
}.

(** *** Pattern matching over the store *)

(** The nodes of one label that have a given identity. *)
Definition nodes_at {A} (nodes : list (node_id * A)) (n : node_id)
  : list (node_id * A) :=
  filter (fun p => (fst p =? n)%N) nodes.

(** [(n)-[:R]->(x:Label)] *)
Definition outgoing {A} (edges : list (node_id * node_id))
    (nodes : list (node_id * A)) (n : node_id) : list (node_id * A) :=
  flat_map (fun e => if (fst e =? n)%N then nodes_at nodes (snd e) else [])
    edges.

(** [(n)<-[:R]-(x:Label)] *)
Definition incoming {A} (edges : list (node_id * node_id))
    (nodes : list (node_id * A)) (n : node_id) : list (node_id * A) :=
  flat_map (fun e => if (snd e =? n)%N then nodes_at nodes (fst e) else [])
    edges.

(** [OPTIONAL MATCH]: a row without a match is kept, with null. *)
Definition optional {A} (l : list A) : list (option A) :=
  match l with
  | [] => [None]
  | _ => map Some l
  end.

Definition traders_named (s : Store) (trader_name : string)
  : list (node_id * Trader) :=
  filter (fun t => String.eqb (name (snd t)) trader_name) (traders s).

(** Property access on a possibly null node. *)
Definition prop {A B} (f : A -> B) (o : option (node_id * A)) : option B :=
  option_map (fun p => f (snd p)) o.

Definition prop_opt {A B} (f : A -> option B) (o : option (node_id * A))
  : option B :=
  match o with
  | Some p => f (snd p)
  | None => None
  end.

Definition vstr (o : option string) : value :=
  match o with Some s => VStr s | None => VNone end.
Definition vint (o : option Z) : value :=
  match o with Some z => VInt z | None => VNone end.
Definition vbool (o : option bool) : value :=
  match o with Some b => VBool b | None => VNone end.

(** [collect] skips nulls. *)
Definition non_null {A} (l : list (option A)) : list A :=
  flat_map (fun o => match o with Some x => [x] | None => [] end) l.

(** [ORDER BY a.created_date DESC]; the order among equal dates is the one
    insertion gives. *)
Definition by_date_desc {A} (date : A -> Z) (l : list A) : list A :=
  sort (fun x y => date y <=? date x) l.

(** The exception the store raises for a statement it rejects. *)
Definition ClientError (msg : string) : exn := Exn "ClientError" msg.

(** [LIMIT $limit]: a negative limit is rejected. *)
Definition limited {A} (limit : Z) (l : list A) : result (list A) :=
  if limit <? 0 then Raise (ClientError "LIMIT: must be a non-negative integer")
  else Ok (firstn (Z.to_nat limit) l).

(** *** [get_alerts_for_trader] *)

Definition alerts_for_trader_query : string := "
        MATCH (t:Trader {name: $trader_name})-[:INVOLVED_IN]->(a:Alert)
        OPTIONAL MATCH (a)-[:HAS_WORKFLOW]->(w:Workflow)
        OPTIONAL MATCH (a)-[:CONTAINS]->(o:Order)
        RETURN a.alert_id as alert_id,
               a.alert_type as alert_type,
               a.created_date as created_date,
               a.status as status,
               w.commentary as commentary,
               w.disposition as disposition,
               collect(DISTINCT {
                   order_id: o.order_id,
                   asset_type: o.asset_type,
                   venue: o.venue_mic,
                   quantity: o.visible_usd_quantity,
                   placed_time: o.placed_time,
                   cancelled_time: o.cancelled_time
               }) as orders
        ORDER BY a.created_date DESC
        LIMIT $limit
        ".

(** The grouping key of the [RETURN]: its six plain columns. *)
Definition trader_alert_key : Type :=
  string * string * Z * string * option string * option string.

Definition trader_alert_date (k : trader_alert_key) : Z :=
  match k with (_, _, d, _, _, _) => d end.

Definition order_map (o : option (node_id * Order)) : value :=
  VDict [("order_id", vstr (prop order_id o));
         ("asset_type", vstr (prop asset_type o));
         ("venue", vstr (prop venue_mic o));
         ("quantity", vint (prop visible_usd_quantity o));
         ("placed_time", vint (prop placed_time o));
         ("cancelled_time", vint (prop_opt cancelled_time o))].

(** The rows of the three [MATCH] clauses, as (key, order map). *)
Definition alerts_for_trader_matches (s : Store) (trader_name : string)
  : list (trader_alert_key * value) :=
  flat_map (fun t =>
    flat_map (fun a =>
      flat_map (fun w =>
        map (fun o =>
               ((alert_id (snd a), alert_type (snd a), created_date (snd a),
                 status (snd a), prop commentary w, prop disposition w),
                order_map o))
          (optional (outgoing (CONTAINS s) (orders s) (fst a))))
        (optional (outgoing (HAS_WORKFLOW s) (workflows s) (fst a))))
      (outgoing (INVOLVED_IN s) (alerts s) (fst t)))
    (traders_named s trader_name).

Definition alerts_for_trader_groups (s : Store) (trader_name : string)
  : list (trader_alert_key * list value) :=
  by_date_desc (fun g => trader_alert_date (fst g))
    (map (fun g => (fst g, distinct (snd g)))
       (group_by (alerts_for_trader_matches s trader_name))).

Definition trader_alert_record (g : trader_alert_key * list value) : dict :=
  match g with
  | ((id, ty, date, st, com, dis), os) =>
      [("alert_id", VStr id); ("alert_type", VStr ty);
       ("created_date", VInt date); ("status", VStr st);
       ("commentary", vstr com); ("disposition", vstr dis);
       ("orders", VList os)]
  end.

(** *** [get_alert_workflow] *)

Definition alert_workflow_query : string := "
        MATCH (a:Alert {alert_id: $alert_id})
        OPTIONAL MATCH (a)-[:HAS_WORKFLOW]->(w:Workflow)
        OPTIONAL MATCH (a)-[:CONTAINS]->(o:Order)
        OPTIONAL MATCH (a)<-[:INVOLVED_IN]-(t:Trader)
        RETURN a.alert_id as alert_id,
               a.alert_type as alert_type,
               a.created_date as created_date,
               a.status as status,
               w.commentary as commentary,
               w.disposition as disposition,
               w.supervisor as supervisor,
               w.review_date as review_date,
               collect(DISTINCT t.name) as traders,
               collect(DISTINCT {
                   order_id: o.order_id,
                   asset_type: o.asset_type,
                   venue: o.venue_mic,
                   quantity: o.visible_usd_quantity,
                   placed_time: o.placed_time,
                   cancelled_time: o.cancelled_time,
                   executed_time: o.executed_time,
                   is_algo: o.is_algo
               }) as orders
        ".

Definition workflow_key : Type :=
  string * string * Z * string *
  option string * option string * option string * option Z.

Definition order_map_full (o : option (node_id * Order)) : value :=
  VDict [("order_id", vstr (prop order_id o));
         ("asset_type", vstr (prop asset_type o));
         ("venue", vstr (prop venue_mic o));
         ("quantity", vint (prop visible_usd_quantity o));
         ("placed_time", vint (prop placed_time o));
         ("cancelled_time", vint (prop_opt cancelled_time o));
         ("executed_time", vint (prop_opt executed_time o));
         ("is_algo", vbool (prop is_algo o))].

Definition alerts_with_id (s : Store) (id : string) : list (node_id * Alert) :=
  filter (fun a => String.eqb (alert_id (snd a)) id) (alerts s).

Definition alert_workflow_matches (s : Store) (id : string)
  : list (workflow_key * (option string * value)) :=
  flat_map (fun a =>
    flat_map (fun w =>
      flat_map (fun o =>
        map (fun t =>
               ((alert_id (snd a), alert_type (snd a), created_date (snd a),
                 status (snd a), prop commentary w, prop disposition w,
                 prop supervisor w, prop review_date w),
                (prop name t, order_map_full o)))
          (optional (incoming (INVOLVED_IN s) (traders s) (fst a))))
        (optional (outgoing (CONTAINS s) (orders s) (fst a))))
      (optional (outgoing (HAS_WORKFLOW s) (workflows s) (fst a))))
    (alerts_with_id s id).

Definition workflow_record
    (g : workflow_key * list (option string * value)) : dict :=
  match g with
  | ((id, ty, date, st, com, dis, sup, rev), rows) =>
      [("alert_id", VStr id); ("alert_type", VStr ty);
       ("created_date", VInt date); ("status", VStr st);
       ("commentary", vstr com); ("disposition", vstr dis);
       ("supervisor", vstr sup); ("review_date", vint rev);
       ("traders", VList (map VStr (distinct (non_null (map fst rows)))));
       ("orders", VList (distinct (map snd rows)))]
  end.

(** *** [get_alerts_by_type] *)

Definition alerts_by_type_query : string := "
        MATCH (a:Alert {alert_type: $misconduct_type})
        OPTIONAL MATCH (a)-[:HAS_WORKFLOW]->(w:Workflow)
        OPTIONAL MATCH (a)<-[:INVOLVED_IN]-(t:Trader)
        RETURN a.alert_id as alert_id,
               a.created_date as created_date,
               a.status as status,
               w.commentary as commentary,
               w.disposition as disposition,
               collect(DISTINCT t.name) as traders
        ORDER BY a.created_date DESC
        LIMIT $limit
        ".

Definition type_alert_key : Type :=
  string * Z * string * option string * option string.

Definition type_alert_date (k : type_alert_key) : Z :=
  match k with (_, d, _, _, _) => d end.

Definition alerts_by_type_matches (s : Store) (misconduct_type : string)
  : list (type_alert_key * option string) :=
  flat_map (fun a =>
    flat_map (fun w =>
      map (fun t =>
             ((alert_id (snd a), created_date (snd a), status (snd a),
               prop commentary w, prop disposition w),
              prop name t))
        (optional (incoming (INVOLVED_IN s) (traders s) (fst a))))
      (optional (outgoing (HAS_WORKFLOW s) (workflows s) (fst a))))
    (filter (fun a => String.eqb (alert_type (snd a)) misconduct_type)
       (alerts s)).

Definition alerts_by_type_groups (s : Store) (misconduct_type : string)
  : list (type_alert_key * list string) :=
  by_date_desc (fun g => type_alert_date (fst g))
    (map (fun g => (fst g, distinct (non_null (snd g))))
       (group_by (alerts_by_type_matches s misconduct_type))).

Definition type_alert_record (g : type_alert_key * list string) : dict :=
  match g with
  | ((id, date, st, com, dis), ts) =>
      [("alert_id", VStr id); ("created_date", VInt date);
       ("status", VStr st); ("commentary", vstr com);
       ("disposition", vstr dis); ("traders", VList (map VStr ts))]
  end.

(** *** [get_trader_network] *)

Definition trader_network_query : string := "
        MATCH path = (t:Trader {name: $trader_name})-[:TRADES_WITH*1..$depth]-(connected:Trader)
        RETURN DISTINCT connected.name as connected_trader,
               length(path) as degrees_of_separation,
               [rel in relationships(path) | {
                   type: type(rel),
                   properties: properties(rel)
               }] as relationships
        ORDER BY degrees_of_separation, connected_trader
        ".

(** *** The session

    [session.run(query, **params)] followed by [result.data()]: from the
    statement's text and its bound parameters to the records, or to the
    exception raised. *)

Definition session : Type := string -> dict -> result (list dict).

(** The session of a store.  It gives their meaning to the three fixed
    statements it accepts.  The statement of [get_trader_network] is
    rejected whatever its parameters: the upper bound of a variable-length
    pattern has to be an integer written in the text, and this text has the
    parameter [$depth] there.  The statement built by
    [search_alerts_by_criteria] is given no meaning here. *)
Definition store_session (s : Store) : session := fun query params =>
  if String.eqb query alerts_for_trader_query then
    match dict_get "trader_name" params, dict_get "limit" params with
    | Some (VStr n), Some (VInt l) =>
        rows <~ limited l (alerts_for_trader_groups s n) ;;
        Ok (map trader_alert_record rows)
    | _, _ => Raise (ClientError "parameter missing or of the wrong type")
    end
  else if String.eqb query alert_workflow_query then
    match dict_get "alert_id" params with
    | Some (VStr id) =>
        Ok (map workflow_record (group_by (alert_workflow_matches s id)))
    | _ => Raise (ClientError "parameter missing or of the wrong type")
    end
  else if String.eqb query alerts_by_type_query then
    match dict_get "misconduct_type" params, dict_get "limit" params with
    | Some (VStr ty), Some (VInt l) =>
        rows <~ limited l (alerts_by_type_groups s ty) ;;
        Ok (map type_alert_record rows)
    | _, _ => Raise (ClientError "parameter missing or of the wrong type")
    end
  else if String.eqb query trader_network_query then
    Raise (ClientError "path length: a parameter is not allowed here")
  else Raise (ClientError "statement not supported").

(** [await result.single()]: the first record, or [None]. *)
Definition single (records : list dict) : option dict :=
  match records with
  | [] => None
  | r :: _ => Some r
  end.

(** *** The tools *)

Section Tools.

Variable run : session.

Definition get_alerts_for_trader (trader_name : string) (limit : Z)
  : result value :=
  let query := alerts_for_trader_query in
  records <~ run query [("trader_name", VStr trader_name);
                        ("limit", VInt limit)] ;;
  Ok (VDict [("trader_name", VStr trader_name);
             ("total_alerts", VInt (Z.of_nat (length records)));
             ("alerts", VList (map VDict records))]).

Definition get_alert_workflow (alert_id : string) : result value :=
  let query := alert_workflow_query in
  records <~ run query [("alert_id", VStr alert_id)] ;;
  match single records with
  | Some record => Ok (VDict record)
  | None => Ok (VDict [("error", VStr ("Alert " ++ alert_id ++ " not found"))])
  end.

Definition get_alerts_by_type (misconduct_type : string) (limit : Z)
  : result value :=
  let query := alerts_by_type_query in
  records <~ run query [("misconduct_type", VStr misconduct_type);
                        ("limit", VInt limit)] ;;
  Ok (VDict [("misconduct_type", VStr misconduct_type);
             ("total_alerts", VInt (Z.of_nat (length records)));
             ("alerts", VList (map VDict records))]).

Definition get_trader_network (trader_name : string) (depth : Z)
  : result value :=
  let query := trader_network_query in
  records <~ run query [("trader_name", VStr trader_name);
                        ("depth", VInt depth)] ;;
  Ok (VDict [("central_trader", VStr trader_name);
             ("network_depth", VInt depth);
             ("connected_traders", VList (map VDict records))]).

End Tools.

(** *** [search_alerts_by_criteria] *)

Definition search_query_head : string := "
        MATCH (a:Alert)
        OPTIONAL MATCH (a)-[:CONTAINS]->(o:Order)
        WITH a, collect(o) as orders
        ".

Definition search_query_tail : string := "
        OPTIONAL MATCH (a)-[:HAS_WORKFLOW]->(w:Workflow)
        OPTIONAL MATCH (a)<-[:INVOLVED_IN]-(t:Trader)
        RETURN a.alert_id as alert_id,
               a.alert_type as alert_type,
               a.created_date as created_date,
               a.status as status,
               w.commentary as commentary,
               w.disposition as disposition,
               collect(DISTINCT t.name) as traders
        ORDER BY a.created_date DESC
        LIMIT $limit
        ".

Definition vfloat (o : option spec_float) : value :=
  match o with Some f => VFloat f | None => VNone end.

(** One [if criterion:] step: a truthy criterion adds its clause and its
    bound parameter. *)
Definition criterion (v : value) (clause key : string)
    (acc : list string * dict) : list string * dict :=
  if truthy v then ((fst acc ++ [clause])%list, dict_set key v (snd acc))
  else acc.

Definition search_clauses_params
    (start_date end_date venue asset_type : option string)
    (min_amount : option spec_float) (limit : Z) : list string * dict :=
  criterion (vfloat min_amount)
    "ANY(o IN orders WHERE o.visible_usd_quantity >= $min_amount)"
    "min_amount"
    (criterion (vstr asset_type)
       "ANY(o IN orders WHERE o.asset_type = $asset_type)" "asset_type"
       (criterion (vstr venue)
          "ANY(o IN orders WHERE o.venue_mic = $venue)" "venue"
          (criterion (vstr end_date)
             "a.created_date <= date($end_date)" "end_date"
             (criterion (vstr start_date)
                "a.created_date >= date($start_date)" "start_date"
                ([], [("limit", VInt limit)]))))).

(** The statement handed to [session.run]: its text and its parameters. *)
Definition search_statement
    (start_date end_date venue asset_type : option string)
    (min_amount : option spec_float) (limit : Z) : string * dict :=
  let (where_clauses, params) :=
    search_clauses_params start_date end_date venue asset_type min_amount
      limit in
  let where_clause :=
    match where_clauses with
    | [] => ""
    | _ => "WHERE " ++ String.concat " AND " where_clauses
    end in
  (search_query_head ++ where_clause ++ search_query_tail, params).


End Neo4jServer.

(** ** The REST passthrough tools ([src/servers/gms_rest_api_mcp_server.py]) *)

Module RestServer.
Import Py.

Notation "x <~ c ;; k" := (rbind c (fun x => k))
  (at level 61, c at next level, right associativity).

(** [ApiService]: the base URL and the HTTP session.  [session_get] takes
    the URL and the query parameters, [session_post] the URL and the JSON
    body; each raises or yields a response. *)
Record ApiService : Type := Service {
  base_url : string;
  session_get : string -> dict -> result response;
  session_post : string -> value -> result response
}.

Section Tools.

Variable api_service : ApiService.

Definition get_real_time_alerts (status_ : option string) (limit : Z)
  : result value :=
  let params := [("limit", VInt limit)] in
  let params :=
    match status_ with
    | Some st => if nonempty st then dict_set "status" (VStr st) params
                 else params
    | None => params
    end in
  response <~ session_get api_service (base_url api_service ++ "/alerts")
                params ;;
  if status response =? 200 then json response
  else Ok (VDict [("error",
                   VStr ("API error: " ++ str_of_int (status response)))]).

Definition get_trader_profile (trader_id : string) : result value :=
  response <~ session_get api_service
                (base_url api_service ++ "/traders/" ++ trader_id) [] ;;
  if status response =? 200 then json response
  else Ok (VDict [("error", VStr ("Trader not found: " ++ trader_id))]).

(** [commentary or ""] *)
Definition or_empty (o : option string) : string :=
  match o with
  | Some c => c
  | None => ""
  end.

Definition submit_alert_feedback (alert_id disposition : string)
    (commentary : option string) : result value :=
  let payload := VDict [("disposition", VStr disposition);
                        ("commentary", VStr (or_empty commentary))] in
  response <~ session_post api_service
                (base_url api_service ++ "/alerts/" ++ alert_id ++ "/feedback")
                payload ;;
  if status response =? 200 then
    Ok (VDict [("success", VBool true);
               ("message", VStr "Feedback submitted")])
  else Ok (VDict [("error",
                   VStr ("Failed to submit feedback: " ++
                         str_of_int (status response)))]).

Definition get_market_data (symbol : string)
    (start_time end_time : option string) : result value :=
  let params := [("symbol", VStr symbol)] in
  let params :=
    match start_time with
    | Some t => if nonempty t then dict_set "start_time" (VStr t) params
                else params
    | None => params
    end in
  let params :=
    match end_time with
    | Some t => if nonempty t then dict_set "end_time" (VStr t) params
                else params
    | None => params
    end in
  response <~ session_get api_service
                (base_url api_service ++ "/market-data") params ;;
  if status response =? 200 then json response
  else Ok (VDict [("error",
                   VStr ("Market data error: " ++
                         str_of_int (status response)))]).

End Tools.

End RestServer.

(** ** The stdio tool server ([src/__init__.py]) *)

Module McpServer.
Import Py.

Notation "x <~ c ;; k" := (rbind c (fun x => k))
  (at level 61, c at next level, right associativity).

Record Tool : Type := mkTool {
  tool_name : string;
  description : string;
  inputSchema : value
}.

Record TextContent : Type := mkText { type_ : string; text : string }.

(** *** [list_tools] *)

Definition string_property (desc : string) : value :=
  VDict [("type", VStr "string"); ("description", VStr desc)].

Definition integer_property (desc : string) (default : Z) : value :=
  VDict [("type", VStr "integer"); ("description", VStr desc);
         ("default", VInt default)].

Definition object_schema (properties : dict) (required : list string) : value :=
  VDict [("type", VStr "object");
         ("properties", VDict properties);
         ("required", VList (map VStr required))].

Definition list_tools : list Tool :=
  [mkTool "get_alerts_for_trader"
     "Get all surveillance alerts for a specific trader"
     (object_schema
        [("trader_name", string_property "Name of the trader to search for");
         ("limit",
          integer_property "Maximum number of alerts to return" 10)]
        ["trader_name"]);
   mkTool "get_alert_workflow"
     "Get the complete workflow and commentary for a specific alert"
     (object_schema
        [("alert_id", string_property "Alert ID to get workflow for")]
        ["alert_id"]);
   mkTool "get_alerts_by_type"
     "Get alerts filtered by misconduct type (spoofing, wash_trading, etc.)"
     (object_schema
        [("misconduct_type",
          string_property
            "Type of misconduct (spoofing, wash_trading, layering, front_running)");
         ("limit",
          integer_property "Maximum number of alerts to return" 10)]
        ["misconduct_type"]);
   mkTool "get_trader_network"
     "Get network of traders connected to a specific trader"
     (object_schema
        [("trader_name", string_property "Central trader name");
         ("depth",
          integer_property "Network depth (degrees of separation)" 2)]
        ["trader_name"])].

(** *** The statements of the four methods *)

Definition alerts_for_trader_query : string := "
            MATCH (t:Trader {name: $trader_name})-[:INVOLVED_IN]->(a:Alert)
            OPTIONAL MATCH (a)-[:HAS_WORKFLOW]->(w:Workflow)
            OPTIONAL MATCH (a)-[:CONTAINS]->(o:Order)
            RETURN a.alert_id as alert_id,
                   a.alert_type as alert_type,
                   a.created_date as created_date,
                   a.status as status,
                   w.commentary as commentary,
                   w.disposition as disposition,
                   collect(DISTINCT {
                       order_id: o.order_id,
                       asset_type: o.asset_type,
                       venue: o.venue_mic,
                       quantity: o.visible_usd_quantity,
                       placed_time: o.placed_time,
                       cancelled_time: o.cancelled_time
                   }) as orders
            ORDER BY a.created_date DESC
            LIMIT $limit
            ".

Definition alert_workflow_query : string := "
            MATCH (a:Alert {alert_id: $alert_id})
            OPTIONAL MATCH (a)-[:HAS_WORKFLOW]->(w:Workflow)
            OPTIONAL MATCH (a)-[:CONTAINS]->(o:Order)
            OPTIONAL MATCH (a)<-[:INVOLVED_IN]-(t:Trader)
            RETURN a.alert_id as alert_id,
                   a.alert_type as alert_type,
                   a.created_date as created_date,
                   a.status as status,
                   w.commentary as commentary,
                   w.disposition as disposition,
                   w.supervisor as supervisor,
                   w.review_date as review_date,
                   collect(DISTINCT t.name) as traders,
                   collect(DISTINCT {
                       order_id: o.order_id,
                       asset_type: o.asset_type,
                       venue: o.venue_mic,
                       quantity: o.visible_usd_quantity,
                       placed_time: o.placed_time,
                       cancelled_time: o.cancelled_time,
                       executed_time: o.executed_time,
                       is_algo: o.is_algo
                   }) as orders
            ".

Definition alerts_by_type_query : string := "
            MATCH (a:Alert {alert_type: $misconduct_type})
            OPTIONAL MATCH (a)-[:HAS_WORKFLOW]->(w:Workflow)
            OPTIONAL MATCH (a)<-[:INVOLVED_IN]-(t:Trader)
            RETURN a.alert_id as alert_id,
                   a.created_date as created_date,
                   a.status as status,
                   w.commentary as commentary,
                   w.disposition as disposition,
                   collect(DISTINCT t.name) as traders
            ORDER BY a.created_date DESC
            LIMIT $limit
            ".

Definition trader_network_query : string := "
            MATCH path = (t:Trader {name: $trader_name})-[:TRADES_WITH*1..$depth]-(connected:Trader)
            RETURN DISTINCT connected.name as connected_trader,
                   length(path) as degrees_of_separation,
                   [rel in relationships(path) | {
                       type: type(rel),
                       properties: properties(rel)
                   }] as relationships
            ORDER BY degrees_of_separation, connected_trader
            ".

Section Server.

(** [json.dumps(v, indent=2)], which raises on a value it cannot encode. *)
Variable json_dumps : value -> result string.

(** The session of [self.driver]. *)
Variable run : Neo4jServer.session.

(** [str(v)] of a value that is not a string. *)
Variable str_of : value -> string.

(** How an f-string renders a value. *)
Definition format (v : value) : string :=
  match v with
  | VStr s => s
  | _ => str_of v
  end.

Definition _get_alerts_for_trader (trader_name limit : value) : result value :=
  let query := alerts_for_trader_query in
  records <~ run query [("trader_name", trader_name); ("limit", limit)] ;;
  Ok (VDict [("trader_name", trader_name);
             ("total_alerts", VInt (Z.of_nat (length records)));
             ("alerts", VList (map VDict records))]).

Definition _get_alert_workflow (alert_id : value) : result value :=
  let query := alert_workflow_query in
  records <~ run query [("alert_id", alert_id)] ;;
  match Neo4jServer.single records with
  | Some record => Ok (VDict record)
  | None =>
      Ok (VDict [("error", VStr ("Alert " ++ format alert_id ++ " not found"))])
  end.

Definition _get_alerts_by_type (misconduct_type limit : value) : result value :=
  let query := alerts_by_type_query in
  records <~ run query [("misconduct_type", misconduct_type);
                        ("limit", limit)] ;;
  Ok (VDict [("misconduct_type", misconduct_type);
             ("total_alerts", VInt (Z.of_nat (length records)));
             ("alerts", VList (map VDict records))]).

Definition _get_trader_network (trader_name depth : value) : result value :=
  let query := trader_network_query in
  records <~ run query [("trader_name", trader_name); ("depth", depth)] ;;
  Ok (VDict [("central_trader", trader_name);
             ("network_depth", depth);
             ("connected_traders", VList (map VDict records))]).

(** [arguments[k]] *)
Definition subscript (arguments : dict) (k : string) : result value :=
  match dict_get k arguments with
  | Some v => Ok v
  | None => Raise (Exn "KeyError" ("'" ++ k ++ "'"))
  end.

(** [arguments.get(k, default)] *)
Definition get_default (arguments : dict) (k : string) (default : value)
  : value :=
  match dict_get k arguments with
  | Some v => v
  | None => default
  end.

(** The [if]/[elif] chain of [call_tool]. *)
Definition dispatch (name : string) (arguments : dict) : result value :=
  if String.eqb name "get_alerts_for_trader" then
    trader_name <~ subscript arguments "trader_name" ;;
    _get_alerts_for_trader trader_name (get_default arguments "limit" (VInt 10))
  else if String.eqb name "get_alert_workflow" then
    alert_id <~ subscript arguments "alert_id" ;;
    _get_alert_workflow alert_id
  else if String.eqb name "get_alerts_by_type" then
    misconduct_type <~ subscript arguments "misconduct_type" ;;
    _get_alerts_by_type misconduct_type
      (get_default arguments "limit" (VInt 10))
  else if String.eqb name "get_trader_network" then
    trader_name <~ subscript arguments "trader_name" ;;
    _get_trader_network trader_name (get_default arguments "depth" (VInt 2))
  else Ok (VDict [("error", VStr ("Unknown tool: " ++ name))]).

(** The body of the [try] block of [call_tool]. *)
Definition call_tool_try (name : string) (arguments : dict)
  : result (list TextContent) :=
  result_ <~ dispatch name arguments ;;
  encoded <~ json_dumps result_ ;;
  Ok [mkText "text" encoded].

Definition call_tool (name : string) (arguments : dict) : list TextContent :=
  match call_tool_try name arguments with
  | Ok contents => contents
  | Raise e => [mkText "text" ("Error: " ++ exn_str e)]
  end.

End Server.

End McpServer.

(** ** Sample inputs *)

Module Samples.
Import Py.

(** A tool server that cannot be reached. *)
Definition unreachable : Agent.FastMCPClient :=
  Agent.Client "http://localhost:8001"
    (fun _ _ _ => Raise (Exn "ClientConnectorError" "Cannot connect to host")).

(** A tool server that answers every call with one record. *)
Definition answering : Agent.FastMCPClient :=
  Agent.Client "http://localhost:8001"
    (fun _ _ _ =>
       Ok (Response 200
             (Ok (VDict [("result", VList [VDict [("total_alerts", VInt 0)]])])))).

(** A tool server that answers with status 503. *)
Definition failing : Agent.FastMCPClient :=
  Agent.Client "http://localhost:8001"
    (fun _ _ _ => Ok (Response 503 (Ok VNone))).

(** An agent whose language model fails. *)
Definition agent_llm_down : Agent.SurveillanceAgent :=
  Agent.Agent_ (fun _ => Raise (Exn "APIConnectionError" "Connection error."))
    answering answering.

(** An agent whose language model always gives the same reply. *)
Definition agent_ok : Agent.SurveillanceAgent :=
  Agent.Agent_ (fun _ => Ok "1. Review the alerts") answering answering.

Definition dumps_stub (v : value) : string := "{}".

(** A small store: three traders, three alerts, and [TRADES_WITH] recorded
    in both directions between the first two traders. *)
Definition desk : Neo4jServer.Store :=
  Neo4jServer.mkStore
    [(1%N, Neo4jServer.mkTrader "Bill Lyons");
     (2%N, Neo4jServer.mkTrader "Ann Chen");
     (3%N, Neo4jServer.mkTrader "Raj Patel")]
    [(10%N, Neo4jServer.mkAlert "A-100" "spoofing" 19800 "open");
     (11%N, Neo4jServer.mkAlert "A-101" "wash_trading" 19810 "closed");
     (12%N, Neo4jServer.mkAlert "A-102" "spoofing" 19805 "open")]
    [(20%N, Neo4jServer.mkWorkflow "no intent found" "dismissed" "J. Doe"
              19812)]
    [(30%N, Neo4jServer.mkOrder "O-1" "equity" "XNYS" 100000 1 (Some 2) None
              true)]
    [(1%N, 10%N); (1%N, 11%N); (1%N, 12%N); (2%N, 11%N)]
    [(11%N, 20%N)]
    [(10%N, 30%N)]
    [Neo4jServer.mkRel 1%N 1%N 2%N []; Neo4jServer.mkRel 2%N 2%N 1%N [];
     Neo4jServer.mkRel 3%N 2%N 3%N []; Neo4jServer.mkRel 4%N 1%N 3%N []].

(** A session that answers with the statement it was handed: its text
    and its bound parameters. *)
Definition echo_session : Neo4jServer.session := fun query params =>
  Ok [[("query", VStr query); ("params", VDict params)]].

(** An external API that gives the same response to every request. *)
Definition api_answering (r : response) : RestServer.ApiService :=
  RestServer.Service "http://localhost:8000/api"
    (fun _ _ => Ok r) (fun _ _ => Ok r).

(** An external API with its four resources: two alerts are active, the
    trader asked for is not known, the market data body is not JSON, and
    feedback is acknowledged with status 201. *)
Definition api_routes : RestServer.ApiService :=
  RestServer.Service "http://localhost:8000/api"
    (fun url params =>
       if String.eqb url "http://localhost:8000/api/alerts" then
         Ok (Response 200 (Ok (VList [VDict [("alert_id", VStr "A-100")];
                                      VDict [("alert_id", VStr "A-102")]])))
       else if String.eqb url "http://localhost:8000/api/market-data" then
         Ok (Response 200
               (Raise (Exn "ContentTypeError" "unexpected mimetype")))
       else Ok (Response 404 (Ok VNone)))
    (fun url body => Ok (Response 201 (Ok (VDict [("id", VInt 7)])))).

(** An external API that cannot be reached. *)
Definition api_down : RestServer.ApiService :=
  RestServer.Service "http://localhost:8000/api"
    (fun _ _ => Raise (Exn "ClientConnectorError" "Cannot connect to host"))
    (fun _ _ => Raise (Exn "ClientConnectorError" "Cannot connect to host")).

(** The exception of a step in which two nodes write the same key. *)
Definition invalid_update : exn :=
  Exn "InvalidUpdateError" "Can receive only one value per step.".

(** An encoder that accepts every value. *)
Definition encode_stub (v : value) : result string := Ok "{}".

Definition str_stub (v : value) : string := "?".

End Samples.

(** ** Notions used in the statements *)

Import Py.

(** A word that the extractor takes for the keyword: it reads "trader" once
    lowercased. *)
Definition names_trader (word : string) : Prop := lower word = "trader".

(** The guard of the first branch of [_fetch_neo4j_data]. *)
Definition trader_branch (query : string) : bool :=
  str_in "bill lyons" query
  || existsb (fun name => str_in name query) ["trader"; "alerts"].

(** A payload all of whose keys are among [ks]. *)
Definition only_keys (ks : list string) (v : value) : Prop :=
  match v with
  | VDict d => forall k, In k (dict_keys d) -> In k ks
  | _ => False
  end.

(** The creation date a returned alert record shows. *)
Definition record_date (r : dict) : Z :=
  match dict_get "created_date" r with
  | Some (VInt z) => z
  | _ => 0
  end.

(** Later records are not more recent than earlier ones. *)
Definition date_descending (records : list dict) : Prop :=
  StronglySorted (fun r r' => record_date r' <= record_date r) records.

(** An optional query parameter as a REST tool sends it: present when a
    string is given and is not empty. *)
Definition sent (k : string) (o : option string) : dict :=
  match o with
  | Some v => if nonempty v then [(k, VStr v)] else []
  | None => []
  end.

(** What the external API answers to the request of each REST tool: the
    tool's own URL, with its own query parameters or JSON body. *)
Definition alerts_response (api : RestServer.ApiService)
    (status_ : option string) (limit : Z) : result response :=
  RestServer.session_get api (RestServer.base_url api ++ "/alerts")
    (("limit", VInt limit) :: sent "status" status_).

Definition profile_response (api : RestServer.ApiService)
    (trader_id : string) : result response :=
  RestServer.session_get api
    (RestServer.base_url api ++ "/traders/" ++ trader_id) [].

Definition feedback_response (api : RestServer.ApiService)
    (alert_id disposition : string) (commentary : option string)
  : result response :=
  RestServer.session_post api
    (RestServer.base_url api ++ "/alerts/" ++ alert_id ++ "/feedback")
    (VDict [("disposition", VStr disposition);
            ("commentary",
             VStr (match commentary with Some c => c | None => "" end))]).

Definition market_response (api : RestServer.ApiService) (symbol : string)
    (start_time end_time : option string) : result response :=
  RestServer.session_get api (RestServer.base_url api ++ "/market-data")
    (("symbol", VStr symbol) ::
     (sent "start_time" start_time ++ sent "end_time" end_time)%list).

(** The argument names a tool descriptor declares as required. *)
Definition required_of (t : McpServer.Tool) : list string :=
  match McpServer.inputSchema t with
  | VDict schema =>
      match dict_get "required" schema with
      | Some (VList l) =>
          flat_map (fun v => match v with VStr k => [k] | _ => [] end) l
      | _ => []
      end
  | _ => []
  end.


(** A string criterion as the code tests it: [None] and the empty string
    are both absent. *)
Definition given (o : option string) : bool := truthy (Neo4jServer.vstr o).

(** An amount as the code tests it: [None] and zero are both absent. *)
Definition given_amount (o : option spec_float) : bool :=
  truthy (Neo4jServer.vfloat o).

(** * Properties *)

(** ** The tool client *)

Section CallTool.

Variable self : Agent.FastMCPClient.
Variables (tool_name : string) (kwargs : dict).

Let posted : result response :=
  Agent.session_post self (Agent.base_url self ++ "/mcp")
    (Agent.tools_call_payload tool_name kwargs)
    [("Content-Type", VStr "application/json")].

Lemma call_tool_total : exists v, Agent.call_tool self tool_name kwargs = Ok v.
Proof.
  unfold Agent.call_tool.
  destruct (Agent.call_tool_try self tool_name kwargs); eauto.
Qed.

Lemma call_tool_transport_exception (e : exn) :
  posted = Raise e ->
  Agent.call_tool self tool_name kwargs =
  Ok (VDict [("error", VStr ("Connection error: " ++ exn_str e))]).
Proof.
  unfold posted, Agent.call_tool, Agent.call_tool_try. intros ->. reflexivity.
Qed.

Lemma call_tool_http_error (r : response) :
  posted = Ok r -> status r <> 200 ->
  Agent.call_tool self tool_name kwargs =
  Ok (VDict [("error", VStr ("HTTP error: " ++ str_of_int (status r)))]).
Proof.
  unfold posted, Agent.call_tool, Agent.call_tool_try. intros -> Hs.
  cbn [rbind]. apply Z.eqb_neq in Hs. rewrite Hs. reflexivity.
Qed.

Lemma call_tool_first_result (r : response) (d : dict) (x : value)
    (xs : list value) :
  posted = Ok r -> status r = 200 -> json r = Ok (VDict d) ->
  dict_get "result" d = Some (VList (x :: xs)) ->
  Agent.call_tool self tool_name kwargs = Ok x.
Proof.
  unfold posted, Agent.call_tool, Agent.call_tool_try. intros -> Hs Hj Hd.
  cbn [rbind]. rewrite Hs, Hj. cbn [Z.eqb Pos.eqb rbind].
  unfold Agent.get_or, method_get. cbn [rbind]. rewrite Hd.
  reflexivity.
Qed.

End CallTool.

(** C8. Whatever the tool name and the arguments: a transport-level
    exception and a response whose status is not 200 each give a dictionary
    of the one shape [{error: message}]; a 200 response whose body holds a
    non-empty [result] sequence gives the first element of that sequence;
    and [call_tool] returns in every case, it never raises. *)
Theorem call_tool_contract (self : Agent.FastMCPClient) (tool_name : string)
    (kwargs : dict) :
  let posted :=
    Agent.session_post self (Agent.base_url self ++ "/mcp")
      (Agent.tools_call_payload tool_name kwargs)
      [("Content-Type", VStr "application/json")] in
  (forall e, posted = Raise e ->
     Agent.call_tool self tool_name kwargs =
     Ok (VDict [("error", VStr ("Connection error: " ++ exn_str e))])) /\
  (forall r, posted = Ok r -> status r <> 200 ->
     Agent.call_tool self tool_name kwargs =
     Ok (VDict [("error", VStr ("HTTP error: " ++ str_of_int (status r)))])) /\
  (forall r d x xs, posted = Ok r -> status r = 200 ->
     json r = Ok (VDict d) -> dict_get "result" d = Some (VList (x :: xs)) ->
     Agent.call_tool self tool_name kwargs = Ok x) /\
  (exists v, Agent.call_tool self tool_name kwargs = Ok v).
Proof.
  cbv zeta. split; [| split; [| split]].
  - apply call_tool_transport_exception.
  - apply call_tool_http_error.
  - intros r d x xs. apply call_tool_first_result.
  - apply call_tool_total.
Qed.

Lemma call_tool_contract_witness :
  Agent.call_tool Samples.unreachable "get_alerts_by_type"
    [("limit", VInt 15)] =
  Ok (VDict [("error", VStr "Connection error: Cannot connect to host")]) /\
  Agent.call_tool Samples.failing "get_alerts_by_type" [("limit", VInt 15)] =
  Ok (VDict [("error", VStr "HTTP error: 503")]) /\
  Agent.call_tool Samples.answering "get_alerts_by_type"
    [("limit", VInt 15)] =
  Ok (VDict [("total_alerts", VInt 0)]).
Proof.
  pose proof (call_tool_contract Samples.unreachable "get_alerts_by_type"
                [("limit", VInt 15)]) as [H1 _].
  pose proof (call_tool_contract Samples.failing "get_alerts_by_type"
                [("limit", VInt 15)]) as [_ [H2 _]].
  pose proof (call_tool_contract Samples.answering "get_alerts_by_type"
                [("limit", VInt 15)]) as [_ [_ [H3 _]]].
  split; [| split].
  - apply (H1 (Exn "ClientConnectorError" "Cannot connect to host")).
    reflexivity.
  - apply (H2 (Response 503 (Ok VNone))); [reflexivity | simpl; lia].
  - eapply H3; reflexivity.
Defined.

(** ** The trader-name extractor *)

Lemma names_trader_eqb (word : string) :
  String.eqb (lower word) "trader" = true <-> names_trader word.
Proof. apply String.eqb_eq. Qed.

Lemma not_names_trader_eqb (word : string) :
  ~ names_trader word -> String.eqb (lower word) "trader" = false.
Proof. intros H. apply String.eqb_neq. exact H. Qed.

(** The loop returns the word that follows the first word naming a trader. *)
Lemma extract_loop_found (pre : list string) :
  forall (done : list string) (t w : string) (rest : list string),
    (forall x, In x pre -> ~ names_trader x) -> names_trader t ->
    Agent.extract_loop (done ++ pre ++ t :: w :: rest) (length done)
      (pre ++ t :: w :: rest) = Some w.
Proof.
  induction pre as [| x pre IH]; intros done t w rest Hpre Ht.
  - cbn [app Agent.extract_loop].
    apply names_trader_eqb in Ht. rewrite Ht. cbn [andb].
    assert (Hlt : (length done + 1 <? length (done ++ t :: w :: rest))%nat = true).
    { apply Nat.ltb_lt. rewrite length_app. cbn [length]. lia. }
    rewrite Hlt. f_equal.
    rewrite app_nth2 by lia.
    replace (length done + 1 - length done)%nat with 1%nat by lia.
    reflexivity.
  - cbn [app Agent.extract_loop].
    rewrite not_names_trader_eqb by (apply Hpre; left; reflexivity).
    cbn [andb].
    specialize (IH (done ++ [x])%list t w rest).
    rewrite <- app_assoc, length_app in IH. cbn [app length] in IH.
    apply IH; [| exact Ht].
    intros y Hy. apply Hpre. right. exact Hy.
Qed.

(** The loop finds nothing when the first word naming a trader, if there is
    one, is the last word. *)
Lemma extract_loop_none (rest : list string) :
  forall done : list string,
    (forall pre t rest', rest = (pre ++ t :: rest')%list ->
       (forall x, In x pre -> ~ names_trader x) -> names_trader t ->
       rest' = []) ->
    Agent.extract_loop (done ++ rest) (length done) rest = None.
Proof.
  induction rest as [| x rest IH]; intros done Hlast.
  - reflexivity.
  - cbn [Agent.extract_loop].
    destruct (String.eqb (lower x) "trader") eqn:Hx.
    + apply names_trader_eqb in Hx.
      assert (rest = []) as ->.
      { apply (Hlast [] x rest); [reflexivity | | exact Hx].
        intros y []. }
      assert (Hlt : (length done + 1 <? length (done ++ [x]))%nat = false).
      { apply Nat.ltb_ge. rewrite length_app. cbn [length]. lia. }
      rewrite Hlt. reflexivity.
    + cbn [andb].
      specialize (IH (done ++ [x])%list).
      rewrite <- app_assoc, length_app in IH. cbn [app length] in IH.
      apply IH. intros pre t rest' -> Hpre Ht.
      apply (Hlast (x :: pre) t rest'); [reflexivity | | exact Ht].
      intros y [<- | Hy]; [| apply Hpre; exact Hy].
      intros Hn. apply names_trader_eqb in Hn. congruence.
Qed.

Lemma extract_bill_lyons (q : string) :
  str_in "bill lyons" (lower q) = true ->
  Agent._extract_trader_name q = "Bill Lyons".
Proof. unfold Agent._extract_trader_name. intros ->. reflexivity. Qed.

Lemma extract_following_word (q : string) (pre : list string) (t w : string)
    (rest : list string) :
  str_in "bill lyons" (lower q) = false -> str_in "trader" q = true ->
  split q = (pre ++ t :: w :: rest)%list ->
  (forall x, In x pre -> ~ names_trader x) -> names_trader t ->
  Agent._extract_trader_name q = w.
Proof.
  unfold Agent._extract_trader_name. intros -> -> Hs Hpre Ht.
  rewrite Hs.
  pose proof (extract_loop_found pre [] t w rest Hpre Ht) as H.
  cbn [app length] in H. rewrite H. reflexivity.
Qed.

Lemma extract_no_following_word (q : string) :
  str_in "bill lyons" (lower q) = false -> str_in "trader" q = true ->
  (forall pre t rest, split q = (pre ++ t :: rest)%list ->
     (forall x, In x pre -> ~ names_trader x) -> names_trader t ->
     rest = []) ->
  Agent._extract_trader_name q = "".
Proof.
  unfold Agent._extract_trader_name. intros -> -> Hlast.
  pose proof (extract_loop_none (split q) [] Hlast) as H.
  cbn [app length] in H. rewrite H. reflexivity.
Qed.

Lemma extract_no_trigger (q : string) :
  str_in "bill lyons" (lower q) = false -> str_in "trader" q = false ->
  Agent._extract_trader_name q = "".
Proof. unfold Agent._extract_trader_name. intros -> ->. reflexivity. Qed.

(** ** The graph-fetch stage *)

Lemma fetch_neo4j_no_trader_name (self : Agent.SurveillanceAgent)
    (state : Agent.SurveillanceState) (tr : list Agent.rpc_call) :
  trader_branch (lower (Agent.query state)) = true ->
  Agent._extract_trader_name (lower (Agent.query state)) = "" ->
  Agent._fetch_neo4j_data self state tr = (Ok state, tr).
Proof.
  unfold trader_branch, Agent._fetch_neo4j_data. intros Hb He.
  cbv zeta. rewrite Hb, He. reflexivity.
Qed.

Lemma fetch_neo4j_spoofing (self : Agent.SurveillanceAgent)
    (state : Agent.SurveillanceState) (tr : list Agent.rpc_call) :
  trader_branch (lower (Agent.query state)) = false ->
  str_in "spoofing" (lower (Agent.query state)) = true ->
  exists spoofing_data,
    Agent._fetch_neo4j_data self state tr =
    (Ok (Agent.set_neo4j_data [("spoofing_alerts", spoofing_data)] state),
     (tr ++ [Agent.Call (Agent.base_url (Agent.neo4j_client self))
               "get_alerts_by_type"
               [("misconduct_type", VStr "spoofing"); ("limit", VInt 15)]])%list).
Proof.
  unfold trader_branch, Agent._fetch_neo4j_data. intros Hb Hs.
  cbv zeta. rewrite Hb, Hs.
  destruct (call_tool_total (Agent.neo4j_client self) "get_alerts_by_type"
              [("misconduct_type", VStr "spoofing"); ("limit", VInt 15)])
    as [v Hv].
  exists v. unfold Agent.bind, Agent.await_call_tool. rewrite Hv. reflexivity.
Qed.

(** C1. On the query "Show me all spoofing alerts from last week" the
    lowercased text holds the trigger "spoofing", but it also holds
    "alerts", which selects the trader branch first; no trader name is
    found there, so the graph-fetch stage issues no tool call at all and
    leaves [neo4j_data] empty: the call of [get_alerts_by_type] for
    "spoofing" with limit 15 is not made. *)
Theorem spoofing_alerts_query_issues_no_call (self : Agent.SurveillanceAgent)
    (tr : list Agent.rpc_call) :
  let q := "Show me all spoofing alerts from last week" in
  str_in "spoofing" (lower q) = true /\
  trader_branch (lower q) = true /\
  Agent._extract_trader_name (lower q) = "" /\
  Agent._fetch_neo4j_data self (Agent.initial_state q) tr =
  (Ok (Agent.initial_state q), tr) /\
  Agent.neo4j_data (Agent.initial_state q) = [].
Proof.
  cbv zeta. split; [| split; [| split; [| split]]].
  - reflexivity.
  - reflexivity.
  - reflexivity.
  - apply fetch_neo4j_no_trader_name; reflexivity.
  - reflexivity.
Qed.

(** C10, as stated, fails twice.  The keyword is matched without regard to
    case, so in "Trader x trader y" the word after the first token equal
    to "trader" is "y" while the extractor returns "x"; and on the query
    "spoofing" the extractor returns the empty string while the stage
    issues a call and fills [neo4j_data]. *)
Lemma extractor_claim_counterexample :
  (let q := "Trader x trader y" in
   str_in "bill lyons" (lower q) = false /\
   str_in "trader" q = true /\
   split q = (["Trader"; "x"] ++ "trader" :: "y" :: [])%list /\
   ~ In "trader" ["Trader"; "x"] /\
   Agent._extract_trader_name q <> "y") /\
  (let q := "spoofing" in
   Agent._extract_trader_name (lower q) = "" /\
   Agent._fetch_neo4j_data Samples.agent_ok (Agent.initial_state q) [] <>
   (Ok (Agent.initial_state q), [])).
Proof.
  split; cbv zeta.
  - split; [reflexivity |]. split; [reflexivity |]. split; [reflexivity |].
    split.
    + intros [H | [H | []]]; discriminate H.
    + vm_compute. discriminate.
  - split; [reflexivity |]. vm_compute. discriminate.
Qed.

(** C10, amended.  For every query string [q] the extractor returns
    "Bill Lyons" when the lowercased [q] contains "bill lyons"; otherwise,
    when [q] contains "trader", it returns the whitespace token that
    follows the first token reading "trader" once lowercased, or the empty
    string when there is no such token or it is the last one; otherwise the
    empty string.  And when the graph-fetch stage takes its trader branch
    (the lowercased query contains "bill lyons", "trader" or "alerts") and
    the extractor returns the empty string on the lowercased query, the
    stage issues no tool call and leaves the state as it was. *)
Theorem extract_trader_name_spec (q : string) :
  (str_in "bill lyons" (lower q) = true ->
   Agent._extract_trader_name q = "Bill Lyons") /\
  (str_in "bill lyons" (lower q) = false -> str_in "trader" q = true ->
   (forall pre t w rest,
      split q = (pre ++ t :: w :: rest)%list ->
      (forall x, In x pre -> ~ names_trader x) -> names_trader t ->
      Agent._extract_trader_name q = w) /\
   ((forall pre t rest,
       split q = (pre ++ t :: rest)%list ->
       (forall x, In x pre -> ~ names_trader x) -> names_trader t ->
       rest = []) ->
    Agent._extract_trader_name q = "")) /\
  (str_in "bill lyons" (lower q) = false -> str_in "trader" q = false ->
   Agent._extract_trader_name q = "") /\
  (forall self state tr,
     Agent.query state = q ->
     trader_branch (lower q) = true ->
     Agent._extract_trader_name (lower q) = "" ->
     Agent._fetch_neo4j_data self state tr = (Ok state, tr)).
Proof.
  split; [| split; [| split]].
  - apply extract_bill_lyons.
  - intros Hb Ht. split.
    + intros pre t w rest. apply extract_following_word; assumption.
    + apply extract_no_following_word; assumption.
  - apply extract_no_trigger.
  - intros self state tr <-. apply fetch_neo4j_no_trader_name.
Qed.

Lemma extract_trader_name_spec_witness :
  Agent._extract_trader_name "alerts for Bill Lyons" = "Bill Lyons" /\
  Agent._extract_trader_name "Is Trader Smith a trader" = "Smith" /\
  Agent._extract_trader_name "who is the trader" = "" /\
  Agent._extract_trader_name "recent alerts" = "" /\
  Agent._fetch_neo4j_data Samples.agent_ok
    (Agent.initial_state "recent alerts") [] =
  (Ok (Agent.initial_state "recent alerts"), []).
Proof.
  split; [| split; [| split; [| split]]].
  - apply (extract_trader_name_spec "alerts for Bill Lyons"). reflexivity.
  - destruct (extract_trader_name_spec "Is Trader Smith a trader")
      as [_ [H _]].
    destruct (H eq_refl eq_refl) as [Hw _].
    apply (Hw ["Is"] "Trader" "Smith" ["a"; "trader"]).
    + reflexivity.
    + intros x [<- | []]; discriminate.
    + reflexivity.
  - destruct (extract_trader_name_spec "who is the trader") as [_ [H _]].
    destruct (H eq_refl eq_refl) as [_ Hn].
    apply Hn. intros pre t rest Hs Hpre Ht.
    change (split "who is the trader") with ["who"; "is"; "the"; "trader"]
      in Hs.
    destruct pre as [| a [| b [| c [| d pre]]]]; cbn in Hs.
    + injection Hs as <- _. discriminate Ht.
    + injection Hs as _ <- _. discriminate Ht.
    + injection Hs as _ _ <- _. discriminate Ht.
    + injection Hs as _ _ _ _ <-. reflexivity.
    + injection Hs as _ _ _ _ Hs. destruct pre; discriminate Hs.
  - apply (extract_trader_name_spec "recent alerts"); reflexivity.
  - apply (extract_trader_name_spec "recent alerts"); reflexivity.
Defined.

(** ** The pipeline *)

(** The run aborts at the parse step when the parse stage raises: no later
    step is run, and the exception of the stage is that of the run. *)
Lemma graph_ainvoke_parse_fault (json_dumps : value -> string)
    (self : Agent.SurveillanceAgent) (invalid_update : exn)
    (sch : Agent.schedule) (state : Agent.SurveillanceState)
    (tr tr' : list Agent.rpc_call) (e : exn) :
  Agent._parse_query self state tr = (Raise e, tr') ->
  Agent.graph_ainvoke json_dumps self invalid_update sch state tr =
  (Raise e, tr').
Proof.
  intros Hparse. unfold Agent.graph_ainvoke, Agent.steps.
  cbn [Agent.run_steps]. unfold Agent.step at 1. cbn [Agent.run_nodes].
  unfold Agent.bind. rewrite Hparse. reflexivity.
Qed.

(** What the run raises, [process_query] catches and reports. *)
Lemma process_query_reports (json_dumps : value -> string)
    (self : Agent.SurveillanceAgent) (invalid_update : exn)
    (sch : Agent.schedule) (query : string)
    (tr tr' : list Agent.rpc_call) (e : exn) :
  Agent.graph_ainvoke json_dumps self invalid_update sch
    (Agent.initial_state query) tr = (Raise e, tr') ->
  Agent.process_query json_dumps self invalid_update sch query tr =
  (VDict [("error", VStr ("Error processing query: " ++ exn_str e));
          ("query", VStr query);
          ("insights",
           VList [VStr ("Failed to process query: " ++ exn_str e)])],
   tr').
Proof.
  intros Hrun. unfold Agent.process_query. rewrite Hrun. reflexivity.
Qed.

(** C9, as stated, fails: the state returned after a fault does not hold
    only an error field and an insight, it also holds the query. *)
Lemma process_query_error_state_counterexample :
  let r := fst (Agent.process_query Samples.dumps_stub Samples.agent_llm_down
                  Samples.invalid_update Agent.GraphThenRest
                  "recent alerts" []) in
  Agent._parse_query Samples.agent_llm_down
    (Agent.initial_state "recent alerts") [] =
  (Raise (Exn "APIConnectionError" "Connection error."), []) /\
  r = VDict [("error", VStr "Error processing query: Connection error.");
             ("query", VStr "recent alerts");
             ("insights",
              VList [VStr "Failed to process query: Connection error."])] /\
  ~ only_keys ["error"; "insights"] r.
Proof.
  cbv zeta. split; [reflexivity |]. split; [reflexivity |].
  intros H. specialize (H "query"). cbn in H.
  destruct H as [H | [H | []]]; [auto | discriminate H | discriminate H].
Qed.

(** C9, amended.  If the parse stage raises, or more generally if the run
    of the compiled graph raises, whatever the exception, then the run has
    raised that exception and [process_query] catches it: it returns a
    dictionary of three fields, the error message, the query as it was
    given, and a single insight that describes the failure. *)
Theorem process_query_catches_stage_fault
    (json_dumps : value -> string) (self : Agent.SurveillanceAgent)
    (invalid_update : exn) (sch : Agent.schedule) (query : string)
    (tr tr' : list Agent.rpc_call) (e : exn) :
  Agent._parse_query self (Agent.initial_state query) tr = (Raise e, tr') \/
  Agent.graph_ainvoke json_dumps self invalid_update sch
    (Agent.initial_state query) tr = (Raise e, tr') ->
  Agent.graph_ainvoke json_dumps self invalid_update sch
    (Agent.initial_state query) tr = (Raise e, tr') /\
  Agent.process_query json_dumps self invalid_update sch query tr =
  (VDict [("error", VStr ("Error processing query: " ++ exn_str e));
          ("query", VStr query);
          ("insights",
           VList [VStr ("Failed to process query: " ++ exn_str e)])],
   tr').
Proof.
  intros Hfault.
  assert (Hrun : Agent.graph_ainvoke json_dumps self invalid_update sch
                   (Agent.initial_state query) tr = (Raise e, tr')).
  { destruct Hfault as [Hparse | Hrun]; [| exact Hrun].
    apply graph_ainvoke_parse_fault. exact Hparse. }
  split; [exact Hrun |]. apply process_query_reports. exact Hrun.
Qed.

Lemma process_query_catches_stage_fault_witness :
  Agent.process_query Samples.dumps_stub Samples.agent_llm_down
    Samples.invalid_update Agent.RestThenGraph "recent alerts" [] =
  (VDict [("error", VStr "Error processing query: Connection error.");
          ("query", VStr "recent alerts");
          ("insights",
           VList [VStr "Failed to process query: Connection error."])],
   []) /\
  fst (Agent.process_query Samples.dumps_stub Samples.agent_ok
         Samples.invalid_update Agent.RestThenGraph "recent alerts" []) =
  VDict [("error",
          VStr "Error processing query: Can receive only one value per step.");
         ("query", VStr "recent alerts");
         ("insights",
          VList [VStr "Failed to process query: Can receive only one value per step."])].
Proof.
  split.
  - apply (process_query_catches_stage_fault Samples.dumps_stub
             Samples.agent_llm_down Samples.invalid_update
             Agent.RestThenGraph "recent alerts" [] []
             (Exn "APIConnectionError" "Connection error.")).
    left. reflexivity.
  - destruct (process_query_catches_stage_fault Samples.dumps_stub
                Samples.agent_ok Samples.invalid_update
                Agent.RestThenGraph "recent alerts" []
                (snd (Agent.graph_ainvoke Samples.dumps_stub Samples.agent_ok
                        Samples.invalid_update Agent.RestThenGraph
                        (Agent.initial_state "recent alerts") []))
                Samples.invalid_update) as [_ Hcaught].
    + right. vm_compute. reflexivity.
    + rewrite Hcaught. reflexivity.
Defined.

(** ** Lists: filtering, sorting, limiting *)

Lemma filter_none {A} (f : A -> bool) (l : list A) :
  (forall x, In x l -> f x = false) -> filter f l = [].
Proof.
  induction l as [| x l IH]; intros H; [reflexivity |].
  cbn [filter]. rewrite (H x) by (left; reflexivity).
  apply IH. intros y Hy. apply H. right. exact Hy.
Qed.

Section Sorting.

Context {A : Type} (le : A -> A -> bool).
Hypothesis le_total : forall x y, le x y = true \/ le y x = true.
Hypothesis le_trans :
  forall x y z, le x y = true -> le y z = true -> le x z = true.

Let R (x y : A) : Prop := le x y = true.

Lemma insert_In (x y : A) (l : list A) :
  In y (insert le x l) <-> y = x \/ In y l.
Proof.
  induction l as [| z l IH]; cbn [insert].
  - cbn. intuition.
  - destruct (le x z); cbn [In]; [intuition |].
    rewrite IH. intuition.
Qed.

Lemma sort_In (y : A) (l : list A) : In y (sort le l) <-> In y l.
Proof.
  induction l as [| x l IH]; [reflexivity |].
  unfold sort in *. cbn [fold_right In]. rewrite insert_In, IH. intuition.
Qed.

Lemma insert_sorted (x : A) (l : list A) :
  StronglySorted R l -> StronglySorted R (insert le x l).
Proof.
  induction 1 as [| z l Hl IH Hz]; cbn [insert].
  - constructor; constructor.
  - destruct (le x z) eqn:Hxz.
    + constructor; [constructor; assumption |].
      constructor; [exact Hxz |].
      rewrite Forall_forall in *. intros y Hy.
      apply (le_trans x z y Hxz). apply Hz. exact Hy.
    + constructor; [exact IH |].
      rewrite Forall_forall in *. intros y Hy.
      apply insert_In in Hy. destruct Hy as [-> | Hy].
      * destruct (le_total x z) as [H | H]; [congruence | exact H].
      * apply Hz. exact Hy.
Qed.

Lemma sort_sorted (l : list A) : StronglySorted R (sort le l).
Proof.
  induction l as [| x l IH]; [constructor |].
  unfold sort in *. cbn [fold_right]. apply insert_sorted. exact IH.
Qed.

End Sorting.

Lemma StronglySorted_firstn {A} (R : A -> A -> Prop) (n : nat) (l : list A) :
  StronglySorted R l -> StronglySorted R (firstn n l).
Proof.
  intros H. revert n.
  induction H as [| x l Hl IH Hx]; intros [| n]; cbn [firstn];
    try constructor.
  - apply IH.
  - rewrite Forall_forall in *. intros y Hy. apply Hx.
    rewrite <- (firstn_skipn n l). apply in_or_app. left. exact Hy.
Qed.

Lemma StronglySorted_map {A B} (R : A -> A -> Prop) (R' : B -> B -> Prop)
    (f : A -> B) (l : list A) :
  (forall x y, R x y -> R' (f x) (f y)) ->
  StronglySorted R l -> StronglySorted R' (map f l).
Proof.
  intros Hf. induction 1 as [| x l Hl IH Hx]; cbn [map]; constructor.
  - exact IH.
  - rewrite Forall_forall in *. intros y Hy.
    apply in_map_iff in Hy. destruct Hy as [z [<- Hz]].
    apply Hf. apply Hx. exact Hz.
Qed.

Lemma by_date_desc_sorted {A} (date : A -> Z) (l : list A) :
  StronglySorted (fun x y => date y <= date x)
    (Neo4jServer.by_date_desc date l).
Proof.
  unfold Neo4jServer.by_date_desc.
  rewrite <- (map_id (sort _ l)).
  apply StronglySorted_map with (R := fun x y => (date y <=? date x) = true).
  - intros x y H. apply Z.leb_le. exact H.
  - apply sort_sorted.
    + intros x y. rewrite !Z.leb_le. lia.
    + intros x y z. rewrite !Z.leb_le. lia.
Qed.

Lemma firstn_length_le_Z {A} (n : Z) (l : list A) :
  0 <= n -> Z.of_nat (length (firstn (Z.to_nat n) l)) <= n.
Proof.
  intros Hn. rewrite length_firstn. lia.
Qed.

(** ** The store's session on the fixed statements *)

Lemma session_alerts_for_trader (s : Neo4jServer.Store) (n : string) (l : Z) :
  Neo4jServer.store_session s Neo4jServer.alerts_for_trader_query
    [("trader_name", VStr n); ("limit", VInt l)] =
  rbind (Neo4jServer.limited l (Neo4jServer.alerts_for_trader_groups s n))
    (fun rows => Ok (map Neo4jServer.trader_alert_record rows)).
Proof.
  unfold Neo4jServer.store_session. rewrite String.eqb_refl. reflexivity.
Qed.

Lemma session_alert_workflow (s : Neo4jServer.Store) (id : string) :
  Neo4jServer.store_session s Neo4jServer.alert_workflow_query
    [("alert_id", VStr id)] =
  Ok (map Neo4jServer.workflow_record
        (group_by (Neo4jServer.alert_workflow_matches s id))).
Proof.
  unfold Neo4jServer.store_session.
  replace (String.eqb Neo4jServer.alert_workflow_query
             Neo4jServer.alerts_for_trader_query) with false
    by (vm_compute; reflexivity).
  rewrite String.eqb_refl. reflexivity.
Qed.

(** ** [get_alert_workflow] *)

(** C3. For every alert identifier that no alert of the store carries,
    [get_alert_workflow] returns exactly the payload
    [{error: Alert <id> not found}]: a returned payload, not a raised
    exception. *)
Theorem alert_workflow_not_found (s : Neo4jServer.Store) (id : string) :
  (forall a, In a (Neo4jServer.alerts s) ->
     Neo4jServer.alert_id (snd a) <> id) ->
  Neo4jServer.get_alert_workflow (Neo4jServer.store_session s) id =
  Ok (VDict [("error", VStr ("Alert " ++ id ++ " not found"))]).
Proof.
  intros Habsent. unfold Neo4jServer.get_alert_workflow. cbv zeta.
  rewrite session_alert_workflow.
  unfold Neo4jServer.alert_workflow_matches, Neo4jServer.alerts_with_id.
  rewrite filter_none.
  - reflexivity.
  - intros a Ha. apply String.eqb_neq. apply Habsent. exact Ha.
Qed.

(** ** [get_alerts_for_trader] *)

(** C4. For every trader name that no trader of the store carries,
    [get_alerts_for_trader] returns the payload with [total_alerts] 0 and
    an empty [alerts] sequence: no error payload, no exception.  The limit
    is any limit the store accepts, the default 10 among them. *)
Theorem alerts_for_unknown_trader (s : Neo4jServer.Store)
    (trader_name : string) (limit : Z) :
  0 <= limit ->
  (forall t, In t (Neo4jServer.traders s) ->
     Neo4jServer.name (snd t) <> trader_name) ->
  Neo4jServer.get_alerts_for_trader (Neo4jServer.store_session s)
    trader_name limit =
  Ok (VDict [("trader_name", VStr trader_name);
             ("total_alerts", VInt 0);
             ("alerts", VList [])]).
Proof.
  intros Hl Habsent. unfold Neo4jServer.get_alerts_for_trader. cbv zeta.
  rewrite session_alerts_for_trader.
  unfold Neo4jServer.limited.
  replace (limit <? 0) with false by (symmetry; apply Z.ltb_ge; exact Hl).
  unfold Neo4jServer.alerts_for_trader_groups,
    Neo4jServer.alerts_for_trader_matches, Neo4jServer.traders_named.
  rewrite filter_none.
  - cbn. rewrite firstn_nil. reflexivity.
  - intros t Ht. apply String.eqb_neq. apply Habsent. exact Ht.
Qed.

(** C5. For every trader name and every N, [get_alerts_for_trader] with
    limit N returns at most N alert records, and the records it returns
    are in descending order of creation date.  It returns for every N that
    is not negative; a negative limit is rejected by the store. *)
Theorem alerts_for_trader_limit_and_order (s : Neo4jServer.Store)
    (trader_name : string) (N : Z) :
  match Neo4jServer.get_alerts_for_trader (Neo4jServer.store_session s)
          trader_name N with
  | Ok payload =>
      exists records,
        payload = VDict [("trader_name", VStr trader_name);
                         ("total_alerts", VInt (Z.of_nat (length records)));
                         ("alerts", VList (map VDict records))] /\
        Z.of_nat (length records) <= N /\
        date_descending records
  | Raise _ => N < 0
  end.
Proof.
  unfold Neo4jServer.get_alerts_for_trader. cbv zeta.
  rewrite session_alerts_for_trader. unfold Neo4jServer.limited.
  destruct (N <? 0) eqn:HN; cbn [rbind].
  - apply Z.ltb_lt. exact HN.
  - apply Z.ltb_ge in HN.
    eexists. split; [reflexivity | split].
    + rewrite length_map. apply firstn_length_le_Z. exact HN.
    + unfold date_descending.
      apply StronglySorted_map
        with (R := fun x y => Neo4jServer.trader_alert_date (fst y)
                              <= Neo4jServer.trader_alert_date (fst x)).
      * intros [[[[[[? ?] ?] ?] ?] ?] ?] [[[[[[? ?] ?] ?] ?] ?] ?] H.
        exact H.
      * apply StronglySorted_firstn.
        apply (by_date_desc_sorted
                 (fun g => Neo4jServer.trader_alert_date (fst g))).
Qed.

Lemma alert_workflow_not_found_witness :
  Neo4jServer.get_alert_workflow (Neo4jServer.store_session Samples.desk)
    "A-999" =
  Ok (VDict [("error", VStr "Alert A-999 not found")]).
Proof.
  apply (alert_workflow_not_found Samples.desk "A-999").
  intros a [<- | [<- | [<- | []]]]; discriminate.
Defined.

Lemma alerts_for_unknown_trader_witness :
  Neo4jServer.get_alerts_for_trader (Neo4jServer.store_session Samples.desk)
    "Nobody" 10 =
  Ok (VDict [("trader_name", VStr "Nobody");
             ("total_alerts", VInt 0);
             ("alerts", VList [])]).
Proof.
  apply (alerts_for_unknown_trader Samples.desk "Nobody" 10).
  - lia.
  - intros t [<- | [<- | [<- | []]]]; discriminate.
Defined.

Example alerts_for_bill_lyons_limit_2 :
  option_map (map record_date)
    (match Neo4jServer.get_alerts_for_trader
             (Neo4jServer.store_session Samples.desk) "Bill Lyons" 2 with
     | Ok (VDict d) =>
         match dict_get "alerts" d with
         | Some (VList l) =>
             Some (flat_map (fun v => match v with VDict r => [r] | _ => [] end) l)
         | _ => None
         end
     | _ => None
     end) = Some [19810; 19805].
Proof. vm_compute. reflexivity. Qed.

(** ** Sorting as a rearrangement *)

Lemma insert_perm {A} (le : A -> A -> bool) (x : A) (l : list A) :
  Permutation (insert le x l) (x :: l).
Proof.
  induction l as [| y l IH]; cbn [insert]; [reflexivity |].
  destruct (le x y); [reflexivity |].
  rewrite IH. apply perm_swap.
Qed.

Lemma sort_perm {A} (le : A -> A -> bool) (l : list A) :
  Permutation (sort le l) l.
Proof.
  induction l as [| x l IH]; [reflexivity |].
  unfold sort in *. cbn [fold_right]. rewrite insert_perm, IH. reflexivity.
Qed.

(** ** [get_trader_network] *)

Lemma session_trader_network (s : Neo4jServer.Store) (params : dict) :
  Neo4jServer.store_session s Neo4jServer.trader_network_query params =
  Raise (Neo4jServer.ClientError
           "path length: a parameter is not allowed here").
Proof.
  unfold Neo4jServer.store_session.
  replace (String.eqb Neo4jServer.trader_network_query
             Neo4jServer.alerts_for_trader_query) with false
    by (vm_compute; reflexivity).
  replace (String.eqb Neo4jServer.trader_network_query
             Neo4jServer.alert_workflow_query) with false
    by (vm_compute; reflexivity).
  replace (String.eqb Neo4jServer.trader_network_query
             Neo4jServer.alerts_by_type_query) with false
    by (vm_compute; reflexivity).
  rewrite String.eqb_refl. reflexivity.
Qed.

(** C6.  [get_trader_network] returns no network of connected traders:
    for every store, trader name and depth, depth 2 included, the call
    raises.  The statement it hands to the store writes the upper bound of
    the variable-length pattern as the parameter [$depth], the same text
    for every depth, and the store rejects that statement; the tool has no
    handler, so the store's exception is the outcome of the call. *)
Theorem trader_network_statement_rejected (s : Neo4jServer.Store)
    (trader_name : string) (depth : Z) :
  str_in "-[:TRADES_WITH*1..$depth]-" Neo4jServer.trader_network_query = true
  /\
  (exists msg,
     Neo4jServer.get_trader_network (Neo4jServer.store_session s)
       trader_name depth = Raise (Neo4jServer.ClientError msg)) /\
  (forall payload,
     Neo4jServer.get_trader_network (Neo4jServer.store_session s)
       trader_name depth <> Ok payload).
Proof.
  assert (Hraise :
    Neo4jServer.get_trader_network (Neo4jServer.store_session s)
      trader_name depth =
    Raise (Neo4jServer.ClientError
             "path length: a parameter is not allowed here")).
  { unfold Neo4jServer.get_trader_network. cbv zeta.
    rewrite session_trader_network. reflexivity. }
  split; [vm_compute; reflexivity |]. split.
  - eexists. exact Hraise.
  - intros payload Hok. rewrite Hraise in Hok. discriminate Hok.
Qed.

Example trader_network_bill_lyons_depth_2 :
  Neo4jServer.get_trader_network (Neo4jServer.store_session Samples.desk)
    "Bill Lyons" 2 =
  Raise (Neo4jServer.ClientError
           "path length: a parameter is not allowed here").
Proof. vm_compute. reflexivity. Qed.

(** ** Statements and their bound parameters *)







(** ** The REST tools *)

(** Each REST tool sends one request, its own, and maps the answer. *)
Lemma get_real_time_alerts_request (api : RestServer.ApiService)
    (status_ : option string) (limit : Z) :
  RestServer.get_real_time_alerts api status_ limit =
  rbind (alerts_response api status_ limit)
    (fun r => if status r =? 200 then json r
              else Ok (VDict [("error",
                               VStr ("API error: " ++
                                     str_of_int (status r)))])).
Proof.
  unfold RestServer.get_real_time_alerts, alerts_response, sent. cbv zeta.
  destruct status_ as [st |]; [destruct (nonempty st) |]; reflexivity.
Qed.

Lemma get_trader_profile_request (api : RestServer.ApiService)
    (trader_id : string) :
  RestServer.get_trader_profile api trader_id =
  rbind (profile_response api trader_id)
    (fun r => if status r =? 200 then json r
              else Ok (VDict [("error",
                               VStr ("Trader not found: " ++ trader_id))])).
Proof. reflexivity. Qed.

Lemma submit_alert_feedback_request (api : RestServer.ApiService)
    (alert_id disposition : string) (commentary : option string) :
  RestServer.submit_alert_feedback api alert_id disposition commentary =
  rbind (feedback_response api alert_id disposition commentary)
    (fun r => if status r =? 200 then
                Ok (VDict [("success", VBool true);
                           ("message", VStr "Feedback submitted")])
              else Ok (VDict [("error",
                               VStr ("Failed to submit feedback: " ++
                                     str_of_int (status r)))])).
Proof. destruct commentary; reflexivity. Qed.

Lemma get_market_data_request (api : RestServer.ApiService)
    (symbol : string) (start_time end_time : option string) :
  RestServer.get_market_data api symbol start_time end_time =
  rbind (market_response api symbol start_time end_time)
    (fun r => if status r =? 200 then json r
              else Ok (VDict [("error",
                               VStr ("Market data error: " ++
                                     str_of_int (status r)))])).
Proof.
  unfold RestServer.get_market_data, market_response, sent. cbv zeta.
  destruct start_time as [st |]; [destruct (nonempty st) |];
    (destruct end_time as [et |]; [destruct (nonempty et) |]); reflexivity.
Qed.

Lemma status_eqb_200 (r : response) : status r = 200 -> (status r =? 200) = true.
Proof. intros ->. reflexivity. Qed.

Lemma status_eqb_other (r : response) :
  status r <> 200 -> (status r =? 200) = false.
Proof. intros H. apply Z.eqb_neq. exact H. Qed.

(** C7, as stated, fails twice: on status 200 [submit_alert_feedback]
    returns a payload of its own, not the body of the response; and a
    success status other than 200, here 201, gives an error payload. *)
Lemma rest_passthrough_counterexample :
  let body := VDict [("id", VStr "A-100")] in
  RestServer.submit_alert_feedback
    (Samples.api_answering (Response 200 (Ok body)))
    "A-100" "dismissed" None =
  Ok (VDict [("success", VBool true); ("message", VStr "Feedback submitted")])
  /\
  RestServer.submit_alert_feedback
    (Samples.api_answering (Response 200 (Ok body)))
    "A-100" "dismissed" None <> Ok body /\
  RestServer.get_real_time_alerts
    (Samples.api_answering (Response 201 (Ok body))) (Some "active") 10 =
  Ok (VDict [("error", VStr "API error: 201")]).
Proof.
  cbv zeta. split; [reflexivity |]. split; [| reflexivity].
  vm_compute. discriminate.
Qed.

(** C7, amended.  Each REST tool is set against the response the external
    API gives to the tool's own request.  When the status of that response
    is 200, [get_real_time_alerts], [get_trader_profile] and
    [get_market_data] return its JSON body unchanged (or raise what
    decoding the body raises) and [submit_alert_feedback] returns the
    fixed payload [{success: true, message: Feedback submitted}]; on
    every other status, 2xx statuses other than 200 included, the tool
    returns a payload with an [error] field. *)
Theorem rest_tools_passthrough (api : RestServer.ApiService) :
  (forall status_ limit r,
     alerts_response api status_ limit = Ok r ->
     (status r = 200 ->
      RestServer.get_real_time_alerts api status_ limit = json r) /\
     (status r <> 200 ->
      RestServer.get_real_time_alerts api status_ limit =
      Ok (VDict [("error",
                  VStr ("API error: " ++ str_of_int (status r)))]))) /\
  (forall trader_id r,
     profile_response api trader_id = Ok r ->
     (status r = 200 ->
      RestServer.get_trader_profile api trader_id = json r) /\
     (status r <> 200 ->
      RestServer.get_trader_profile api trader_id =
      Ok (VDict [("error", VStr ("Trader not found: " ++ trader_id))]))) /\
  (forall symbol start_time end_time r,
     market_response api symbol start_time end_time = Ok r ->
     (status r = 200 ->
      RestServer.get_market_data api symbol start_time end_time = json r) /\
     (status r <> 200 ->
      RestServer.get_market_data api symbol start_time end_time =
      Ok (VDict [("error",
                  VStr ("Market data error: " ++
                        str_of_int (status r)))]))) /\
  (forall alert_id disposition commentary r,
     feedback_response api alert_id disposition commentary = Ok r ->
     (status r = 200 ->
      RestServer.submit_alert_feedback api alert_id disposition commentary =
      Ok (VDict [("success", VBool true);
                 ("message", VStr "Feedback submitted")])) /\
     (status r <> 200 ->
      RestServer.submit_alert_feedback api alert_id disposition commentary =
      Ok (VDict [("error",
                  VStr ("Failed to submit feedback: " ++
                        str_of_int (status r)))]))).
Proof.
  split; [| split; [| split]].
  - intros status_ limit r Hr. rewrite get_real_time_alerts_request, Hr.
    cbn [rbind]. split; intros Hs.
    + rewrite (status_eqb_200 r Hs). reflexivity.
    + rewrite (status_eqb_other r Hs). reflexivity.
  - intros trader_id r Hr. rewrite get_trader_profile_request, Hr.
    cbn [rbind]. split; intros Hs.
    + rewrite (status_eqb_200 r Hs). reflexivity.
    + rewrite (status_eqb_other r Hs). reflexivity.
  - intros symbol start_time end_time r Hr.
    rewrite get_market_data_request, Hr.
    cbn [rbind]. split; intros Hs.
    + rewrite (status_eqb_200 r Hs). reflexivity.
    + rewrite (status_eqb_other r Hs). reflexivity.
  - intros alert_id disposition commentary r Hr.
    rewrite submit_alert_feedback_request, Hr.
    cbn [rbind]. split; intros Hs.
    + rewrite (status_eqb_200 r Hs). reflexivity.
    + rewrite (status_eqb_other r Hs). reflexivity.
Qed.

Lemma rest_tools_passthrough_witness :
  RestServer.get_real_time_alerts Samples.api_routes (Some "active") 10 =
  Ok (VList [VDict [("alert_id", VStr "A-100")];
             VDict [("alert_id", VStr "A-102")]]) /\
  RestServer.get_trader_profile Samples.api_routes "Bill Lyons" =
  Ok (VDict [("error", VStr "Trader not found: Bill Lyons")]) /\
  RestServer.submit_alert_feedback Samples.api_routes "A-100" "dismissed"
    None =
  Ok (VDict [("error", VStr "Failed to submit feedback: 201")]).
Proof.
  destruct (rest_tools_passthrough Samples.api_routes)
    as [Halerts [Hprofile [_ Hfeedback]]].
  split; [| split].
  - destruct (Halerts (Some "active") 10
                (Response 200
                   (Ok (VList [VDict [("alert_id", VStr "A-100")];
                               VDict [("alert_id", VStr "A-102")]])))
                eq_refl) as [H _].
    apply H. reflexivity.
  - destruct (Hprofile "Bill Lyons" (Response 404 (Ok VNone)) eq_refl)
      as [_ H].
    apply H. simpl. lia.
  - destruct (Hfeedback "A-100" "dismissed" None
                (Response 201 (Ok (VDict [("id", VInt 7)]))) eq_refl)
      as [_ H].
    apply H. simpl. lia.
Defined.

(** * Further properties of the code *)

(** ** The tool client: [list_tools] *)

(** X1. [list_tools] never raises.  A transport exception, a status other
    than 200, a body that cannot be decoded or is not an object, a [result]
    that is missing or is not an object, and a missing [tools] all give the
    empty list; a 200 response whose body holds [result.tools] gives that
    value. *)
Theorem list_tools_contract (self : Agent.FastMCPClient) :
  let posted :=
    Agent.session_post self (Agent.base_url self ++ "/mcp")
      Agent.tools_list_payload
      [("Content-Type", VStr "application/json")] in
  (forall e, posted = Raise e -> Agent.list_tools self = VList []) /\
  (forall r, posted = Ok r -> status r <> 200 ->
     Agent.list_tools self = VList []) /\
  (forall r e, posted = Ok r -> status r = 200 -> json r = Raise e ->
     Agent.list_tools self = VList []) /\
  (forall r v, posted = Ok r -> status r = 200 -> json r = Ok v ->
     (forall d, v <> VDict d) -> Agent.list_tools self = VList []) /\
  (forall r d, posted = Ok r -> status r = 200 -> json r = Ok (VDict d) ->
     dict_get "result" d = None -> Agent.list_tools self = VList []) /\
  (forall r d inner, posted = Ok r -> status r = 200 ->
     json r = Ok (VDict d) -> dict_get "result" d = Some inner ->
     (forall i, inner <> VDict i) -> Agent.list_tools self = VList []) /\
  (forall r d inner, posted = Ok r -> status r = 200 ->
     json r = Ok (VDict d) -> dict_get "result" d = Some (VDict inner) ->
     dict_get "tools" inner = None -> Agent.list_tools self = VList []) /\
  (forall r d inner tools, posted = Ok r -> status r = 200 ->
     json r = Ok (VDict d) -> dict_get "result" d = Some (VDict inner) ->
     dict_get "tools" inner = Some tools ->
     Agent.list_tools self = tools).
Proof.
  cbv zeta. unfold Agent.list_tools, Agent.list_tools_try.
  split; [| split; [| split; [| split; [| split; [| split; [| split]]]]]].
  - intros e ->. reflexivity.
  - intros r -> Hs. apply Z.eqb_neq in Hs. cbn [rbind]. rewrite Hs.
    reflexivity.
  - intros r e -> Hs Hj. cbn [rbind]. rewrite Hs, Hj. reflexivity.
  - intros r v -> Hs Hj Hv. cbn [rbind]. rewrite Hs, Hj.
    cbn [Z.eqb Pos.eqb rbind].
    destruct v; try reflexivity. exfalso. eapply Hv. reflexivity.
  - intros r d -> Hs Hj Hd. cbn [rbind]. rewrite Hs, Hj.
    cbn [Z.eqb Pos.eqb rbind]. unfold Agent.get_or, method_get.
    cbn [rbind]. rewrite Hd. reflexivity.
  - intros r d inner -> Hs Hj Hd Hi. cbn [rbind]. rewrite Hs, Hj.
    cbn [Z.eqb Pos.eqb rbind]. unfold Agent.get_or, method_get.
    cbn [rbind]. rewrite Hd.
    destruct inner; try reflexivity. exfalso. eapply Hi. reflexivity.
  - intros r d inner -> Hs Hj Hd Ht. cbn [rbind]. rewrite Hs, Hj.
    cbn [Z.eqb Pos.eqb rbind]. unfold Agent.get_or, method_get.
    cbn [rbind]. rewrite Hd. cbn [rbind]. rewrite Ht. reflexivity.
  - intros r d inner tools -> Hs Hj Hd Ht. cbn [rbind]. rewrite Hs, Hj.
    cbn [Z.eqb Pos.eqb rbind]. unfold Agent.get_or, method_get.
    cbn [rbind]. rewrite Hd. cbn [rbind]. rewrite Ht. reflexivity.
Qed.

Lemma list_tools_contract_witness :
  Agent.list_tools Samples.unreachable = VList [] /\
  Agent.list_tools Samples.failing = VList [] /\
  Agent.list_tools Samples.answering = VList [].
Proof.
  split; [| split].
  - apply (list_tools_contract Samples.unreachable)
      with (e := Exn "ClientConnectorError" "Cannot connect to host").
    reflexivity.
  - destruct (list_tools_contract Samples.failing) as [_ [H _]].
    apply (H (Response 503 (Ok VNone))); [reflexivity | simpl; lia].
  - destruct (list_tools_contract Samples.answering)
      as [_ [_ [_ [_ [_ [H _]]]]]].
    eapply H; [reflexivity | reflexivity | reflexivity | reflexivity |].
    intros d. discriminate.
Defined.

(** ** The fetch stages *)

Lemma await_call_tool_returns (client : Agent.FastMCPClient)
    (tool_name : string) (kwargs : dict) :
  exists v,
    Agent.call_tool client tool_name kwargs = Ok v /\
    forall tr,
      Agent.await_call_tool client tool_name kwargs tr =
      (Ok v, (tr ++ [Agent.Call (Agent.base_url client) tool_name kwargs])%list).
Proof.
  destruct (call_tool_total client tool_name kwargs) as [v Hv].
  exists v. split; [exact Hv |]. intros tr.
  unfold Agent.await_call_tool. rewrite Hv. reflexivity.
Qed.

Lemma set_neo4j_data_same (state : Agent.SurveillanceState) :
  Agent.set_neo4j_data (Agent.neo4j_data state) state = state.
Proof. destruct state. reflexivity. Qed.

(** What the graph-fetch stage does is fixed by the query text alone: the
    calls it issues, and the dictionary it stores, if any. *)
Lemma fetch_neo4j_by_query (self : Agent.SurveillanceAgent) (q : string) :
  exists (stored : option dict) (calls : list Agent.rpc_call),
    (length calls <= 2)%nat /\
    Forall (fun c => Agent.call_url c =
                     Agent.base_url (Agent.neo4j_client self)) calls /\
    forall state tr,
      Agent.query state = q ->
      Agent._fetch_neo4j_data self state tr =
      (Ok (match stored with
           | Some d => Agent.set_neo4j_data d state
           | None => state
           end),
       (tr ++ calls)%list).
Proof.
  set (client := Agent.neo4j_client self).
  destruct (trader_branch (lower q)) eqn:Hb.
  - destruct (nonempty (Agent._extract_trader_name (lower q))) eqn:Hn.
    + destruct (await_call_tool_returns client "get_alerts_for_trader"
                  [("trader_name", VStr (Agent._extract_trader_name (lower q)));
                   ("limit", VInt 20)]) as [a [_ Ha]].
      destruct (await_call_tool_returns client "get_trader_network"
                  [("trader_name", VStr (Agent._extract_trader_name (lower q)));
                   ("depth", VInt 2)]) as [n [_ Hnet]].
      exists (Some [("alerts", a); ("network", n)]),
        [Agent.Call (Agent.base_url client) "get_alerts_for_trader"
           [("trader_name", VStr (Agent._extract_trader_name (lower q)));
            ("limit", VInt 20)];
         Agent.Call (Agent.base_url client) "get_trader_network"
           [("trader_name", VStr (Agent._extract_trader_name (lower q)));
            ("depth", VInt 2)]].
      split; [cbn; lia |]. split.
      * repeat constructor.
      * intros state tr <-. unfold Agent._fetch_neo4j_data. cbv zeta.
        unfold trader_branch in Hb. rewrite Hb, Hn.
        unfold Agent.bind. fold client. rewrite Ha, Hnet.
        unfold Agent.ret. rewrite <- app_assoc. reflexivity.
    + exists None, []. split; [cbn; lia |]. split; [constructor |].
      intros state tr <-. unfold Agent._fetch_neo4j_data. cbv zeta.
      unfold trader_branch in Hb. rewrite Hb, Hn.
      unfold Agent.ret. rewrite app_nil_r. reflexivity.
  - destruct (str_in "spoofing" (lower q)) eqn:Hs.
    + destruct (await_call_tool_returns client "get_alerts_by_type"
                  [("misconduct_type", VStr "spoofing"); ("limit", VInt 15)])
        as [v [_ Hv]].
      exists (Some [("spoofing_alerts", v)]),
        [Agent.Call (Agent.base_url client) "get_alerts_by_type"
           [("misconduct_type", VStr "spoofing"); ("limit", VInt 15)]].
      split; [cbn; lia |]. split.
      * repeat constructor.
      * intros state tr <-. unfold Agent._fetch_neo4j_data. cbv zeta.
        unfold trader_branch in Hb. rewrite Hb, Hs.
        unfold Agent.bind. fold client. rewrite Hv. reflexivity.
    + destruct (str_in "wash trading" (lower q)) eqn:Hw.
      * destruct (await_call_tool_returns client "get_alerts_by_type"
                    [("misconduct_type", VStr "wash_trading");
                     ("limit", VInt 15)]) as [v [_ Hv]].
        exists (Some [("wash_trading_alerts", v)]),
          [Agent.Call (Agent.base_url client) "get_alerts_by_type"
             [("misconduct_type", VStr "wash_trading"); ("limit", VInt 15)]].
        split; [cbn; lia |]. split.
        -- repeat constructor.
        -- intros state tr <-. unfold Agent._fetch_neo4j_data. cbv zeta.
           unfold trader_branch in Hb. rewrite Hb, Hs, Hw.
           unfold Agent.bind. fold client. rewrite Hv. reflexivity.
      * exists None, []. split; [cbn; lia |]. split; [constructor |].
        intros state tr <-. unfold Agent._fetch_neo4j_data. cbv zeta.
        unfold trader_branch in Hb. rewrite Hb, Hs, Hw.
        unfold Agent.ret. rewrite app_nil_r. reflexivity.
Qed.

(** X2. The graph-fetch stage never raises, whatever the tool server does; it
    issues at most two calls, all to the graph tool server, and changes no
    field of the state other than [neo4j_data]. *)
Theorem fetch_neo4j_frame (self : Agent.SurveillanceAgent)
    (state : Agent.SurveillanceState) (tr : list Agent.rpc_call) :
  exists d calls,
    Agent._fetch_neo4j_data self state tr =
    (Ok (Agent.set_neo4j_data d state), (tr ++ calls)%list) /\
    (length calls <= 2)%nat /\
    Forall (fun c => Agent.call_url c =
                     Agent.base_url (Agent.neo4j_client self)) calls.
Proof.
  destruct (fetch_neo4j_by_query self (Agent.query state))
    as [stored [calls [Hlen [Hurl Hrun]]]].
  destruct stored as [d |].
  - exists d, calls. rewrite (Hrun state tr eq_refl). auto.
  - exists (Agent.neo4j_data state), calls.
    rewrite (Hrun state tr eq_refl), set_neo4j_data_same. auto.
Qed.

Lemma fetch_neo4j_with_name (self : Agent.SurveillanceAgent)
    (state : Agent.SurveillanceState) (tr : list Agent.rpc_call)
    (trader_name : string) :
  trader_branch (lower (Agent.query state)) = true ->
  Agent._extract_trader_name (lower (Agent.query state)) = trader_name ->
  trader_name <> "" ->
  let client := Agent.neo4j_client self in
  let alerts_kwargs := [("trader_name", VStr trader_name); ("limit", VInt 20)] in
  let network_kwargs := [("trader_name", VStr trader_name); ("depth", VInt 2)] in
  exists alerts_data network_data,
    Agent.call_tool client "get_alerts_for_trader" alerts_kwargs =
    Ok alerts_data /\
    Agent.call_tool client "get_trader_network" network_kwargs =
    Ok network_data /\
    Agent._fetch_neo4j_data self state tr =
    (Ok (Agent.set_neo4j_data
           [("alerts", alerts_data); ("network", network_data)] state),
     (tr ++ [Agent.Call (Agent.base_url client) "get_alerts_for_trader"
               alerts_kwargs;
             Agent.Call (Agent.base_url client) "get_trader_network"
               network_kwargs])%list).
Proof.
  intros Hb He Hne. cbv zeta.
  destruct (await_call_tool_returns (Agent.neo4j_client self)
              "get_alerts_for_trader"
              [("trader_name", VStr trader_name); ("limit", VInt 20)])
    as [a [Ha Hta]].
  destruct (await_call_tool_returns (Agent.neo4j_client self)
              "get_trader_network"
              [("trader_name", VStr trader_name); ("depth", VInt 2)])
    as [n [Hn Htn]].
  exists a, n. split; [exact Ha |]. split; [exact Hn |].
  unfold Agent._fetch_neo4j_data. cbv zeta.
  unfold trader_branch in Hb. rewrite Hb, He.
  assert (Hnon : nonempty trader_name = true)
    by (destruct trader_name; [contradiction Hne; reflexivity | reflexivity]).
  rewrite Hnon. unfold Agent.bind. rewrite Hta, Htn.
  unfold Agent.ret. rewrite <- app_assoc. reflexivity.
Qed.

(** X3. When the trader branch finds a name, the stage issues exactly two
    calls for it, [get_alerts_for_trader] with limit 20 and then
    [get_trader_network] with depth 2, and stores their results under
    [alerts] and [network]. *)
Theorem fetch_neo4j_trader_calls (self : Agent.SurveillanceAgent)
    (state : Agent.SurveillanceState) (tr : list Agent.rpc_call)
    (trader_name : string) :
  trader_branch (lower (Agent.query state)) = true ->
  Agent._extract_trader_name (lower (Agent.query state)) = trader_name ->
  trader_name <> "" ->
  let client := Agent.neo4j_client self in
  let alerts_kwargs := [("trader_name", VStr trader_name); ("limit", VInt 20)] in
  let network_kwargs := [("trader_name", VStr trader_name); ("depth", VInt 2)] in
  exists alerts_data network_data,
    Agent.call_tool client "get_alerts_for_trader" alerts_kwargs =
    Ok alerts_data /\
    Agent.call_tool client "get_trader_network" network_kwargs =
    Ok network_data /\
    Agent._fetch_neo4j_data self state tr =
    (Ok (Agent.set_neo4j_data
           [("alerts", alerts_data); ("network", network_data)] state),
     (tr ++ [Agent.Call (Agent.base_url client) "get_alerts_for_trader"
               alerts_kwargs;
             Agent.Call (Agent.base_url client) "get_trader_network"
               network_kwargs])%list).
Proof. apply fetch_neo4j_with_name. Qed.

Lemma fetch_neo4j_trader_calls_witness :
  Agent._fetch_neo4j_data Samples.agent_ok
    (Agent.initial_state "Get all alerts with workflow for Bill Lyons") [] =
  (Ok (Agent.set_neo4j_data
         [("alerts", VDict [("total_alerts", VInt 0)]);
          ("network", VDict [("total_alerts", VInt 0)])]
         (Agent.initial_state "Get all alerts with workflow for Bill Lyons")),
   [Agent.Call "http://localhost:8001" "get_alerts_for_trader"
      [("trader_name", VStr "Bill Lyons"); ("limit", VInt 20)];
    Agent.Call "http://localhost:8001" "get_trader_network"
      [("trader_name", VStr "Bill Lyons"); ("depth", VInt 2)]]).
Proof.
  destruct (fetch_neo4j_trader_calls Samples.agent_ok
              (Agent.initial_state "Get all alerts with workflow for Bill Lyons")
              [] "Bill Lyons" eq_refl eq_refl)
    as [a [n [Ha [Hn Hrun]]]].
  - discriminate.
  - injection Ha as <-. injection Hn as <-. exact Hrun.
Defined.

(** X4. A query that mentions none of "bill lyons", "trader" and "alerts"
    reaches the misconduct branches: "spoofing" gives one call of
    [get_alerts_by_type] for [spoofing]; otherwise "wash trading" gives one
    call for [wash_trading], stored under [wash_trading_alerts]; otherwise
    nothing is called and the state is unchanged.  The limit is 15 in
    both calls. *)
Theorem fetch_neo4j_misconduct_branches (self : Agent.SurveillanceAgent)
    (state : Agent.SurveillanceState) (tr : list Agent.rpc_call) :
  trader_branch (lower (Agent.query state)) = false ->
  let q := lower (Agent.query state) in
  let client := Agent.neo4j_client self in
  let call ty :=
    Agent.Call (Agent.base_url client) "get_alerts_by_type"
      [("misconduct_type", VStr ty); ("limit", VInt 15)] in
  (str_in "spoofing" q = true ->
   exists data,
     Agent._fetch_neo4j_data self state tr =
     (Ok (Agent.set_neo4j_data [("spoofing_alerts", data)] state),
      (tr ++ [call "spoofing"])%list)) /\
  (str_in "spoofing" q = false -> str_in "wash trading" q = true ->
   exists data,
     Agent._fetch_neo4j_data self state tr =
     (Ok (Agent.set_neo4j_data [("wash_trading_alerts", data)] state),
      (tr ++ [call "wash_trading"])%list)) /\
  (str_in "spoofing" q = false -> str_in "wash trading" q = false ->
   Agent._fetch_neo4j_data self state tr = (Ok state, tr)).
Proof.
  intros Hb. cbv zeta. unfold trader_branch in Hb.
  split; [| split].
  - intros Hs. apply fetch_neo4j_spoofing; assumption.
  - intros Hs Hw.
    destruct (await_call_tool_returns (Agent.neo4j_client self)
                "get_alerts_by_type"
                [("misconduct_type", VStr "wash_trading"); ("limit", VInt 15)])
      as [v [_ Hv]].
    exists v. unfold Agent._fetch_neo4j_data. cbv zeta.
    rewrite Hb, Hs, Hw. unfold Agent.bind. rewrite Hv. reflexivity.
  - intros Hs Hw. unfold Agent._fetch_neo4j_data. cbv zeta.
    rewrite Hb, Hs, Hw. reflexivity.
Qed.

Lemma fetch_neo4j_misconduct_branches_witness :
  exists data,
    Agent._fetch_neo4j_data Samples.agent_ok
      (Agent.initial_state "Any Wash Trading this month?") [] =
    (Ok (Agent.set_neo4j_data [("wash_trading_alerts", data)]
           (Agent.initial_state "Any Wash Trading this month?")),
     [Agent.Call "http://localhost:8001" "get_alerts_by_type"
        [("misconduct_type", VStr "wash_trading"); ("limit", VInt 15)]]).
Proof.
  destruct (fetch_neo4j_misconduct_branches Samples.agent_ok
              (Agent.initial_state "Any Wash Trading this month?") []
              eq_refl) as [_ [H _]].
  exact (H eq_refl eq_refl).
Defined.

(** X7. The REST-fetch stage never raises.  It always calls
    [get_real_time_alerts] with status "active" and limit 10 and stores
    the result under [real_time_alerts]; it then calls [get_trader_profile]
    for "Bill Lyons" exactly when the lowercased query contains
    "bill lyons", and stores that under [trader_profile].  No field other
    than [api_data] changes. *)
Theorem fetch_api_calls (self : Agent.SurveillanceAgent)
    (state : Agent.SurveillanceState) (tr : list Agent.rpc_call) :
  let client := Agent.api_client self in
  let alerts_call :=
    Agent.Call (Agent.base_url client) "get_real_time_alerts"
      [("status", VStr "active"); ("limit", VInt 10)] in
  let profile_call :=
    Agent.Call (Agent.base_url client) "get_trader_profile"
      [("trader_id", VStr "Bill Lyons")] in
  exists real_time profile,
    Agent.call_tool client "get_real_time_alerts"
      [("status", VStr "active"); ("limit", VInt 10)] = Ok real_time /\
    Agent.call_tool client "get_trader_profile"
      [("trader_id", VStr "Bill Lyons")] = Ok profile /\
    Agent._fetch_api_data self state tr =
    if str_in "bill lyons" (lower (Agent.query state)) then
      (Ok (Agent.set_api_data
             [("real_time_alerts", real_time); ("trader_profile", profile)]
             state),
       (tr ++ [alerts_call; profile_call])%list)
    else
      (Ok (Agent.set_api_data [("real_time_alerts", real_time)] state),
       (tr ++ [alerts_call])%list).
Proof.
  cbv zeta.
  destruct (await_call_tool_returns (Agent.api_client self)
              "get_real_time_alerts"
              [("status", VStr "active"); ("limit", VInt 10)])
    as [rt [Hrt Hart]].
  destruct (await_call_tool_returns (Agent.api_client self)
              "get_trader_profile" [("trader_id", VStr "Bill Lyons")])
    as [pr [Hpr Hapr]].
  exists rt, pr. split; [exact Hrt |]. split; [exact Hpr |].
  unfold Agent._fetch_api_data. cbv zeta. unfold Agent.bind.
  rewrite Hart. cbn [Agent.query Agent.set_api_data].
  destruct (str_in "bill lyons" (lower (Agent.query state))).
  - rewrite Hapr. unfold Agent.ret. rewrite <- app_assoc. reflexivity.
  - reflexivity.
Qed.

(** ** Lowercasing and the extracted name *)

Lemma chr_lower_idempotent (c : ascii) : chr_lower (chr_lower c) = chr_lower c.
Proof.
  destruct c as [[] [] [] [] [] [] [] []]; vm_compute; reflexivity.
Qed.

Lemma isspace_chr_lower (c : ascii) : isspace (chr_lower c) = isspace c.
Proof.
  destruct c as [[] [] [] [] [] [] [] []]; vm_compute; reflexivity.
Qed.

Lemma lower_idempotent (s : string) : lower (lower s) = lower s.
Proof.
  induction s as [| c s IH]; [reflexivity |].
  cbn [lower]. rewrite chr_lower_idempotent, IH. reflexivity.
Qed.

Lemma lower_append (a b : string) : lower (a ++ b) = lower a ++ lower b.
Proof.
  induction a as [| c a IH]; [reflexivity |].
  cbn [lower append]. rewrite IH. reflexivity.
Qed.

Lemma flush_lower (acc : string) : flush (lower acc) = map lower (flush acc).
Proof. destruct acc; reflexivity. Qed.

(** Splitting a lowercased text gives the lowercased words of the text. *)
Lemma split_from_lower (s : string) :
  forall acc, split_from (lower acc) (lower s) = map lower (split_from acc s).
Proof.
  induction s as [| c s IH]; intros acc.
  - apply flush_lower.
  - cbn [lower split_from]. rewrite isspace_chr_lower.
    destruct (isspace c).
    + rewrite map_app, flush_lower. f_equal. apply (IH EmptyString).
    + rewrite <- IH, lower_append. reflexivity.
Qed.

Lemma split_lower (s : string) : split (lower s) = map lower (split s).
Proof. apply (split_from_lower s EmptyString). Qed.

Lemma extract_loop_In (words : list string) :
  forall rest i w, Agent.extract_loop words i rest = Some w -> In w words.
Proof.
  induction rest as [| x rest IH]; intros i w H; [discriminate H |].
  cbn [Agent.extract_loop] in H.
  destruct (String.eqb (lower x) "trader" && (i + 1 <? length words)%nat)
    eqn:Hc.
  - injection H as <-. apply andb_prop in Hc. destruct Hc as [_ Hlt].
    apply Nat.ltb_lt in Hlt. apply nth_In. exact Hlt.
  - eapply IH. exact H.
Qed.

(** X6. The graph-fetch stage hands the lowercased query to the extractor, so
    the trader name it obtains, and passes to the tools, is "Bill Lyons" or
    has no capital letter: a name typed "Smith" is looked up as "smith". *)
Theorem extracted_name_is_lowercase (q : string) :
  let trader_name := Agent._extract_trader_name (lower q) in
  trader_name = "Bill Lyons" \/ lower trader_name = trader_name.
Proof.
  cbv zeta. unfold Agent._extract_trader_name.
  destruct (str_in "bill lyons" (lower (lower q))); [left; reflexivity |].
  right. destruct (str_in "trader" (lower q)); [| reflexivity].
  destruct (Agent.extract_loop (split (lower q)) 0 (split (lower q)))
    as [w |] eqn:Hw; [| reflexivity].
  apply extract_loop_In in Hw. rewrite split_lower in Hw.
  apply in_map_iff in Hw. destruct Hw as [x [<- _]].
  apply lower_idempotent.
Qed.

Example extracted_name_smith :
  Agent._extract_trader_name (lower "Alerts for trader Smith") = "smith".
Proof. reflexivity. Qed.

(** ** The whole run *)

(** The REST-fetch stage never raises; its first call asks for the active
    alerts, and all its calls go to the REST tool server. *)
Lemma fetch_api_by_query (self : Agent.SurveillanceAgent) (q : string) :
  exists (a : dict) (rest : list Agent.rpc_call),
    Forall (fun c => Agent.call_url c =
                     Agent.base_url (Agent.api_client self)) rest /\
    forall state tr,
      Agent.query state = q ->
      Agent._fetch_api_data self state tr =
      (Ok (Agent.set_api_data a state),
       (tr ++ Agent.Call (Agent.base_url (Agent.api_client self))
                "get_real_time_alerts"
                [("status", VStr "active"); ("limit", VInt 10)] :: rest)%list).
Proof.
  destruct (await_call_tool_returns (Agent.api_client self)
              "get_real_time_alerts"
              [("status", VStr "active"); ("limit", VInt 10)])
    as [rt [_ Hart]].
  destruct (await_call_tool_returns (Agent.api_client self)
              "get_trader_profile" [("trader_id", VStr "Bill Lyons")])
    as [pr [_ Hapr]].
  destruct (str_in "bill lyons" (lower q)) eqn:Hb.
  - exists [("real_time_alerts", rt); ("trader_profile", pr)],
      [Agent.Call (Agent.base_url (Agent.api_client self))
         "get_trader_profile" [("trader_id", VStr "Bill Lyons")]].
    split; [repeat constructor |].
    intros state tr <-. unfold Agent._fetch_api_data. cbv zeta.
    unfold Agent.bind. rewrite Hart. cbn [Agent.query Agent.set_api_data].
    rewrite Hb, Hapr. unfold Agent.ret. rewrite <- app_assoc. reflexivity.
  - exists [("real_time_alerts", rt)], [].
    split; [constructor |].
    intros state tr <-. unfold Agent._fetch_api_data. cbv zeta.
    unfold Agent.bind. rewrite Hart. cbn [Agent.query Agent.set_api_data].
    rewrite Hb. reflexivity.
Qed.

(** The step of the two fetch nodes: both run, on the state the step starts
    from, and as each returns the whole state the step raises. *)
Lemma fetch_step_collides (self : Agent.SurveillanceAgent)
    (invalid_update : exn) (sch : Agent.schedule)
    (state : Agent.SurveillanceState) (tr : list Agent.rpc_call) :
  exists calls,
    Agent.step invalid_update (Agent.fetch_stages self sch) state tr =
    (Raise invalid_update, (tr ++ calls)%list) /\
    In (Agent.Call (Agent.base_url (Agent.api_client self))
          "get_real_time_alerts"
          [("status", VStr "active"); ("limit", VInt 10)]) calls /\
    Forall (fun c =>
              Agent.call_url c = Agent.base_url (Agent.neo4j_client self) \/
              Agent.call_url c = Agent.base_url (Agent.api_client self))
      calls.
Proof.
  destruct (fetch_neo4j_by_query self (Agent.query state))
    as [stored [graph_calls [_ [Hgraph Hn]]]].
  destruct (fetch_api_by_query self (Agent.query state))
    as [a [rest [Hrest Ha]]].
  set (first := Agent.Call (Agent.base_url (Agent.api_client self))
                  "get_real_time_alerts"
                  [("status", VStr "active"); ("limit", VInt 10)]) in *.
  assert (Hrest_calls :
    Forall (fun c =>
              Agent.call_url c = Agent.base_url (Agent.neo4j_client self) \/
              Agent.call_url c = Agent.base_url (Agent.api_client self))
      (first :: rest)).
  { constructor; [right; reflexivity |].
    eapply Forall_impl; [| exact Hrest]. intros c Hc. right. exact Hc. }
  assert (Hgraph_calls :
    Forall (fun c =>
              Agent.call_url c = Agent.base_url (Agent.neo4j_client self) \/
              Agent.call_url c = Agent.base_url (Agent.api_client self))
      graph_calls).
  { eapply Forall_impl; [| exact Hgraph]. intros c Hc. left. exact Hc. }
  destruct sch.
  - exists (graph_calls ++ first :: rest)%list. split; [| split].
    + unfold Agent.step, Agent.fetch_stages. cbn [Agent.run_nodes].
      unfold Agent.bind, Agent.ret.
      rewrite (Hn state tr eq_refl), (Ha state _ eq_refl).
      cbn [Agent.apply_writes]. unfold Agent.raise.
      rewrite <- app_assoc. reflexivity.
    + apply in_or_app. right. left. reflexivity.
    + apply Forall_app. split; assumption.
  - exists ((first :: rest) ++ graph_calls)%list. split; [| split].
    + unfold Agent.step, Agent.fetch_stages. cbn [Agent.run_nodes].
      unfold Agent.bind, Agent.ret.
      rewrite (Ha state tr eq_refl), (Hn state _ eq_refl).
      cbn [Agent.apply_writes]. unfold Agent.raise.
      rewrite <- app_assoc. reflexivity.
    + left. reflexivity.
    + apply Forall_app. split; assumption.
Qed.

(** A step of one node passes on what the node returns or raises. *)
Lemma step_single (invalid_update : exn) (f : Agent.stage)
    (state : Agent.SurveillanceState) (tr : list Agent.rpc_call) :
  Agent.step invalid_update [f] state tr = f state tr.
Proof.
  unfold Agent.step. cbn [Agent.run_nodes]. unfold Agent.bind, Agent.ret.
  destruct (f state tr) as [[update | e] tr']; reflexivity.
Qed.

(** Once the parse stage has returned, the run raises in its second step. *)
Lemma graph_ainvoke_collides (json_dumps : value -> string)
    (self : Agent.SurveillanceAgent) (invalid_update : exn)
    (sch : Agent.schedule) (state state1 : Agent.SurveillanceState)
    (tr tr1 : list Agent.rpc_call) :
  Agent._parse_query self state tr = (Ok state1, tr1) ->
  exists calls,
    Agent.graph_ainvoke json_dumps self invalid_update sch state tr =
    (Raise invalid_update, (tr ++ calls)%list) /\
    In (Agent.Call (Agent.base_url (Agent.api_client self))
          "get_real_time_alerts"
          [("status", VStr "active"); ("limit", VInt 10)]) calls /\
    Forall (fun c =>
              Agent.call_url c = Agent.base_url (Agent.neo4j_client self) \/
              Agent.call_url c = Agent.base_url (Agent.api_client self))
      calls.
Proof.
  intros Hparse.
  assert (Htr : tr1 = tr).
  { unfold Agent._parse_query, Agent.bind, Agent.lift in Hparse.
    cbv zeta in Hparse.
    destruct (Agent.llm_ainvoke self _) in Hparse; cbn in Hparse;
      [injection Hparse as _ Ht; symmetry; exact Ht | discriminate Hparse]. }
  subst tr1.
  destruct (fetch_step_collides self invalid_update sch state1 tr)
    as [calls [Hstep [Hin Hall]]].
  exists calls. split; [| split; assumption].
  unfold Agent.graph_ainvoke, Agent.steps. cbn [Agent.run_steps].
  unfold Agent.bind at 1. rewrite step_single, Hparse.
  unfold Agent.bind at 1. rewrite Hstep. reflexivity.
Qed.

(** X10. As the graph is wired, [process_query] returns the error state on
    every run, never a state with an analysis.  When the parse stage
    raises, what is reported is its exception and no tool call has been
    issued.  When the parse stage returns, both fetch nodes run in the
    next step, each returns the whole state, the runtime refuses the two
    writes, and what is reported is its [InvalidUpdateError]; by then the
    calls of both nodes have been issued, the one for the active alerts
    among them. *)
Theorem process_query_always_error_state (json_dumps : value -> string)
    (self : Agent.SurveillanceAgent) (invalid_update : exn)
    (sch : Agent.schedule) (query : string) (tr : list Agent.rpc_call) :
  (exists e tr',
     Agent.process_query json_dumps self invalid_update sch query tr =
     (VDict [("error", VStr ("Error processing query: " ++ exn_str e));
             ("query", VStr query);
             ("insights",
              VList [VStr ("Failed to process query: " ++ exn_str e)])],
      tr')) /\
  (forall e tr',
     Agent._parse_query self (Agent.initial_state query) tr = (Raise e, tr') ->
     tr' = tr /\
     Agent.process_query json_dumps self invalid_update sch query tr =
     (VDict [("error", VStr ("Error processing query: " ++ exn_str e));
             ("query", VStr query);
             ("insights",
              VList [VStr ("Failed to process query: " ++ exn_str e)])],
      tr)) /\
  (forall state1 tr1,
     Agent._parse_query self (Agent.initial_state query) tr =
     (Ok state1, tr1) ->
     exists calls,
       Agent.process_query json_dumps self invalid_update sch query tr =
       (VDict [("error",
                VStr ("Error processing query: " ++ exn_str invalid_update));
               ("query", VStr query);
               ("insights",
                VList [VStr ("Failed to process query: " ++
                             exn_str invalid_update)])],
        (tr ++ calls)%list) /\
       In (Agent.Call (Agent.base_url (Agent.api_client self))
             "get_real_time_alerts"
             [("status", VStr "active"); ("limit", VInt 10)]) calls /\
       Forall (fun c =>
                 Agent.call_url c =
                 Agent.base_url (Agent.neo4j_client self) \/
                 Agent.call_url c = Agent.base_url (Agent.api_client self))
         calls).
Proof.
  assert (Hraise : forall e tr',
    Agent._parse_query self (Agent.initial_state query) tr = (Raise e, tr') ->
    tr' = tr /\
    Agent.process_query json_dumps self invalid_update sch query tr =
    (VDict [("error", VStr ("Error processing query: " ++ exn_str e));
            ("query", VStr query);
            ("insights",
             VList [VStr ("Failed to process query: " ++ exn_str e)])],
     tr)).
  { intros e tr' Hparse.
    assert (Htr : tr' = tr).
    { unfold Agent._parse_query, Agent.bind, Agent.lift in Hparse.
      cbv zeta in Hparse.
      destruct (Agent.llm_ainvoke self _) in Hparse; cbn in Hparse;
        [discriminate Hparse | injection Hparse as _ Ht; symmetry; exact Ht]. }
    subst tr'. split; [reflexivity |].
    apply process_query_reports, graph_ainvoke_parse_fault. exact Hparse. }
  assert (Hreturn : forall state1 tr1,
    Agent._parse_query self (Agent.initial_state query) tr =
    (Ok state1, tr1) ->
    exists calls,
      Agent.process_query json_dumps self invalid_update sch query tr =
      (VDict [("error",
               VStr ("Error processing query: " ++ exn_str invalid_update));
              ("query", VStr query);
              ("insights",
               VList [VStr ("Failed to process query: " ++
                            exn_str invalid_update)])],
       (tr ++ calls)%list) /\
      In (Agent.Call (Agent.base_url (Agent.api_client self))
            "get_real_time_alerts"
            [("status", VStr "active"); ("limit", VInt 10)]) calls /\
      Forall (fun c =>
                Agent.call_url c =
                Agent.base_url (Agent.neo4j_client self) \/
                Agent.call_url c = Agent.base_url (Agent.api_client self))
        calls).
  { intros state1 tr1 Hparse.
    destruct (graph_ainvoke_collides json_dumps self invalid_update sch
                _ _ _ _ Hparse) as [calls [Hrun [Hin Hall]]].
    exists calls. split; [| split; assumption].
    apply process_query_reports. exact Hrun. }
  split; [| split; assumption].
  destruct (Agent._parse_query self (Agent.initial_state query) tr)
    as [[state1 | e] tr1] eqn:Hparse.
  - destruct (Hreturn _ _ eq_refl) as [calls [Hq _]].
    exists invalid_update, (tr ++ calls)%list. exact Hq.
  - destruct (Hraise _ _ eq_refl) as [_ Hq].
    exists e, tr. exact Hq.
Qed.

Lemma process_query_always_error_state_witness :
  exists calls,
    Agent.process_query Samples.dumps_stub Samples.agent_ok
      Samples.invalid_update Agent.GraphThenRest
      "Show me recent spoofing alerts" [] =
    (VDict [("error",
             VStr "Error processing query: Can receive only one value per step.");
            ("query", VStr "Show me recent spoofing alerts");
            ("insights",
             VList [VStr "Failed to process query: Can receive only one value per step."])],
     calls) /\
    In (Agent.Call "http://localhost:8001" "get_real_time_alerts"
          [("status", VStr "active"); ("limit", VInt 10)]) calls.
Proof.
  destruct (process_query_always_error_state Samples.dumps_stub
              Samples.agent_ok Samples.invalid_update Agent.GraphThenRest
              "Show me recent spoofing alerts" []) as [_ [_ Hreturn]].
  destruct (Hreturn _ _ eq_refl) as [calls [Hq [Hin _]]].
  exists ([] ++ calls)%list. split; [exact Hq | exact Hin].
Defined.

(** ** The insights kept from the model's reply *)

Lemma lstrip_head (s : string) :
  lstrip s = "" \/ exists c t, lstrip s = String c t /\ isspace c = false.
Proof.
  induction s as [| c s IH]; [left; reflexivity |].
  cbn [lstrip]. destruct (isspace c) eqn:Hc; [exact IH |].
  right. exists c, s. split; [reflexivity | exact Hc].
Qed.

Lemma rstrip_idempotent (s : string) : rstrip (rstrip s) = rstrip s.
Proof.
  induction s as [| c s IH]; [reflexivity |].
  cbn [rstrip]. destruct (rstrip s) as [| c' s'] eqn:Hr.
  - destruct (isspace c) eqn:Hc; [reflexivity |].
    cbn [rstrip]. rewrite Hc. reflexivity.
  - cbn [rstrip] in IH |- *. cbn [rstrip]. rewrite IH. reflexivity.
Qed.

Lemma rstrip_keeps_head (c : ascii) (t : string) :
  isspace c = false -> exists t', rstrip (String c t) = String c t'.
Proof.
  intros Hc. cbn [rstrip]. destruct (rstrip t) as [| c' t'].
  - rewrite Hc. eexists. reflexivity.
  - eexists. reflexivity.
Qed.

Lemma strip_idempotent (s : string) : strip (strip s) = strip s.
Proof.
  unfold strip. destruct (lstrip_head s) as [-> | [c [t [-> Hc]]]].
  - reflexivity.
  - destruct (rstrip_keeps_head c t Hc) as [t' Ht'].
    rewrite Ht'. cbn [lstrip]. rewrite Hc. rewrite <- Ht'.
    apply rstrip_idempotent.
Qed.

(** X12. Every insight is a line of the reply, stripped of surrounding
    whitespace; it is not empty, stripping it again changes nothing, and
    the line it comes from has a digit among its first three characters,
    counted before stripping.  The insights keep the order of the lines
    and are no more than the lines. *)
Theorem parse_insights_sound (insights_text : string) :
  (forall insight, In insight (Agent.parse_insights insights_text) ->
     insight <> "" /\
     strip insight = insight /\
     exists line,
       In line (split_on LF insights_text) /\
       insight = strip line /\
       any_char isdigit (take 3 line) = true) /\
  (length (Agent.parse_insights insights_text) <=
   length (split_on LF insights_text))%nat.
Proof.
  unfold Agent.parse_insights. split.
  - intros insight Hin. apply in_map_iff in Hin.
    destruct Hin as [line [<- Hline]]. apply filter_In in Hline.
    destruct Hline as [Hline Hkeep]. apply andb_prop in Hkeep.
    destruct Hkeep as [Hne Hnum]. split; [| split].
    + intros Heq. rewrite Heq in Hne. discriminate Hne.
    + apply strip_idempotent.
    + exists line. auto.
  - rewrite length_map. apply filter_length_le.
Qed.

(** A numbered item that is indented by three spaces is not kept, and a
    line whose number comes late is not kept either. *)
Example parse_insights_indentation :
  Agent.parse_insights (String.concat (String LF "")
    ["Here are the insights:"; "1. Freeze the account"; "   2. Call the desk";
     ""; "Step 3: escalate"; " 4) File a report "]) =
  ["1. Freeze the account"; "4) File a report"].
Proof. reflexivity. Qed.

(** ** Grouping and pattern matching *)

Section Grouping.

Context {K V : Type} `{Eqb K}.

Lemma add_to_group_keys (k : K) (v : V) (acc : list (K * list V)) :
  forall g, In g (add_to_group k v acc) ->
            fst g = k \/ exists g0, In g0 acc /\ fst g0 = fst g.
Proof.
  induction acc as [| [k' vs] acc IH]; intros g Hg; cbn [add_to_group] in Hg.
  - destruct Hg as [<- | []]. left. reflexivity.
  - destruct (eqb k k').
    + destruct Hg as [<- | Hg].
      * right. exists (k', vs). split; [left; reflexivity | reflexivity].
      * right. exists g. split; [right; exact Hg | reflexivity].
    + destruct Hg as [<- | Hg].
      * right. exists (k', vs). split; [left; reflexivity | reflexivity].
      * destruct (IH g Hg) as [Hk | [g0 [Hg0 Hk]]]; [left; exact Hk |].
        right. exists g0. split; [right; exact Hg0 | exact Hk].
Qed.

Lemma fold_groups_keys (rows : list (K * V)) :
  forall acc g,
    In g (fold_left (fun g kv => add_to_group (fst kv) (snd kv) g) rows acc) ->
    (exists g0, In g0 acc /\ fst g0 = fst g) \/
    (exists v, In (fst g, v) rows).
Proof.
  induction rows as [| [k v] rows IH]; intros acc g Hg; cbn [fold_left] in Hg.
  - left. exists g. split; [exact Hg | reflexivity].
  - destruct (IH _ _ Hg) as [[g0 [Hg0 Hk]] | [v' Hv']].
    + cbn [fst snd] in Hg0.
      destruct (add_to_group_keys k v acc g0 Hg0) as [Hk0 | [g1 [Hg1 Hk1]]].
      * right. exists v. left. rewrite <- Hk, Hk0. reflexivity.
      * left. exists g1. split; [exact Hg1 | congruence].
    + right. exists v'. right. exact Hv'.
Qed.

(** Every group's key is the key of one of the rows. *)
Lemma group_by_keys (rows : list (K * V)) (g : K * list V) :
  In g (group_by rows) -> exists v, In (fst g, v) rows.
Proof.
  unfold group_by. intros Hg.
  destruct (fold_groups_keys rows [] g Hg) as [[g0 [[] _]] | Hv]. exact Hv.
Qed.

Lemma add_to_group_head (k : K) (v : V) (g0 : K * list V)
    (acc : list (K * list V)) :
  exists g1 acc', add_to_group k v (g0 :: acc) = g1 :: acc' /\ fst g1 = fst g0.
Proof.
  destruct g0 as [k0 vs]. cbn [add_to_group].
  destruct (eqb k k0); eexists; eexists; split; reflexivity.
Qed.

Lemma fold_groups_head (rows : list (K * V)) :
  forall g0 acc, exists g1 acc',
    fold_left (fun g kv => add_to_group (fst kv) (snd kv) g) rows (g0 :: acc)
    = g1 :: acc' /\ fst g1 = fst g0.
Proof.
  induction rows as [| [k v] rows IH]; intros g0 acc; cbn [fold_left].
  - exists g0, acc. split; reflexivity.
  - cbn [fst snd].
    destruct (add_to_group_head k v g0 acc) as [g1 [acc1 [-> Hk1]]].
    destruct (IH g1 acc1) as [g2 [acc2 [-> Hk2]]].
    exists g2, acc2. split; [reflexivity | congruence].
Qed.

(** The first group has the key of the first row. *)
Lemma group_by_head (kv : K * V) (rows : list (K * V)) :
  exists g gs, group_by (kv :: rows) = g :: gs /\ fst g = fst kv.
Proof.
  unfold group_by. cbn [fold_left add_to_group].
  destruct (fold_groups_head rows (fst kv, [snd kv]) []) as [g [gs [-> Hk]]].
  exists g, gs. split; [reflexivity | exact Hk].
Qed.

End Grouping.

Lemma optional_nonempty {A} (l : list A) : Neo4jServer.optional l <> [].
Proof. destruct l; discriminate. Qed.

Lemma flat_map_nonempty {A B} (f : A -> list B) (l : list A) :
  l <> [] -> (forall x, f x <> []) -> flat_map f l <> [].
Proof.
  destruct l as [| x l]; [contradiction |]. intros _ Hf.
  cbn [flat_map]. specialize (Hf x). destruct (f x); [contradiction |].
  discriminate.
Qed.

Lemma map_nonempty {A B} (f : A -> B) (l : list A) : l <> [] -> map f l <> [].
Proof. destruct l; [contradiction | discriminate]. Qed.

Lemma outgoing_In {A} (edges : list (Neo4jServer.node_id * Neo4jServer.node_id))
    (nodes : list (Neo4jServer.node_id * A)) (n : Neo4jServer.node_id)
    (x : Neo4jServer.node_id * A) :
  In x (Neo4jServer.outgoing edges nodes n) ->
  In (n, fst x) edges /\ In x nodes.
Proof.
  unfold Neo4jServer.outgoing, Neo4jServer.nodes_at. intros Hx.
  apply in_flat_map in Hx. destruct Hx as [[a b] [He Hx]].
  cbn [fst snd] in Hx. destruct (a =? n)%N eqn:Ha; [| destruct Hx].
  apply N.eqb_eq in Ha. subst a. apply filter_In in Hx.
  destruct Hx as [Hx Hb]. apply N.eqb_eq in Hb. subst b.
  split; assumption.
Qed.

Lemma session_alerts_by_type (s : Neo4jServer.Store) (ty : string) (l : Z) :
  Neo4jServer.store_session s Neo4jServer.alerts_by_type_query
    [("misconduct_type", VStr ty); ("limit", VInt l)] =
  rbind (Neo4jServer.limited l (Neo4jServer.alerts_by_type_groups s ty))
    (fun rows => Ok (map Neo4jServer.type_alert_record rows)).
Proof.
  unfold Neo4jServer.store_session.
  replace (String.eqb Neo4jServer.alerts_by_type_query
             Neo4jServer.alerts_for_trader_query) with false
    by (vm_compute; reflexivity).
  replace (String.eqb Neo4jServer.alerts_by_type_query
             Neo4jServer.alert_workflow_query) with false
    by (vm_compute; reflexivity).
  rewrite String.eqb_refl. reflexivity.
Qed.

Lemma firstn_In {A} (n : nat) (l : list A) (x : A) :
  In x (firstn n l) -> In x l.
Proof.
  intros Hx. rewrite <- (firstn_skipn n l). apply in_or_app. left. exact Hx.
Qed.

(** ** What the alert tools return *)

Lemma alerts_for_trader_matches_sound (s : Neo4jServer.Store)
    (trader_name : string) (k : Neo4jServer.trader_alert_key) (v : value) :
  In (k, v) (Neo4jServer.alerts_for_trader_matches s trader_name) ->
  exists t a com dis,
    In t (Neo4jServer.traders s) /\
    Neo4jServer.name (snd t) = trader_name /\
    In a (Neo4jServer.alerts s) /\
    In (fst t, fst a) (Neo4jServer.INVOLVED_IN s) /\
    k = (Neo4jServer.alert_id (snd a), Neo4jServer.alert_type (snd a),
         Neo4jServer.created_date (snd a), Neo4jServer.status (snd a),
         com, dis).
Proof.
  unfold Neo4jServer.alerts_for_trader_matches. intros Hin.
  apply in_flat_map in Hin. destruct Hin as [t [Ht Hin]].
  apply in_flat_map in Hin. destruct Hin as [a [Ha Hin]].
  apply in_flat_map in Hin. destruct Hin as [w [_ Hin]].
  apply in_map_iff in Hin. destruct Hin as [o [Heq _]].
  injection Heq as <- _.
  unfold Neo4jServer.traders_named in Ht. apply filter_In in Ht.
  destruct Ht as [Ht Hn]. apply String.eqb_eq in Hn.
  apply outgoing_In in Ha. destruct Ha as [He Ha].
  exists t, a. eexists. eexists. repeat split; eauto.
Qed.

(** X13. Every record [get_alerts_for_trader] returns shows an alert of the
    store in which a trader of the requested name is involved: its
    identifier, type, creation date and status are that alert's. *)
Theorem alerts_for_trader_sound (s : Neo4jServer.Store)
    (trader_name : string) (limit : Z) :
  0 <= limit ->
  exists records,
    Neo4jServer.get_alerts_for_trader (Neo4jServer.store_session s)
      trader_name limit =
    Ok (VDict [("trader_name", VStr trader_name);
               ("total_alerts", VInt (Z.of_nat (length records)));
               ("alerts", VList (map VDict records))]) /\
    forall r, In r records ->
      exists t a,
        In t (Neo4jServer.traders s) /\
        Neo4jServer.name (snd t) = trader_name /\
        In a (Neo4jServer.alerts s) /\
        In (fst t, fst a) (Neo4jServer.INVOLVED_IN s) /\
        dict_get "alert_id" r = Some (VStr (Neo4jServer.alert_id (snd a))) /\
        dict_get "alert_type" r =
        Some (VStr (Neo4jServer.alert_type (snd a))) /\
        dict_get "created_date" r =
        Some (VInt (Neo4jServer.created_date (snd a))) /\
        dict_get "status" r = Some (VStr (Neo4jServer.status (snd a))).
Proof.
  intros Hl. unfold Neo4jServer.get_alerts_for_trader. cbv zeta.
  rewrite session_alerts_for_trader. unfold Neo4jServer.limited.
  replace (limit <? 0) with false by (symmetry; apply Z.ltb_ge; exact Hl).
  cbn [rbind]. eexists. split; [reflexivity |].
  intros r Hr. apply in_map_iff in Hr. destruct Hr as [g [<- Hg]].
  apply firstn_In in Hg.
  unfold Neo4jServer.alerts_for_trader_groups, Neo4jServer.by_date_desc in Hg.
  apply (Permutation_in _ (sort_perm _ _)) in Hg.
  apply in_map_iff in Hg. destruct Hg as [g0 [<- Hg0]].
  apply group_by_keys in Hg0. destruct Hg0 as [v Hv].
  apply alerts_for_trader_matches_sound in Hv.
  destruct Hv as [t [a [com [dis [Ht [Hn [Ha [He Hk]]]]]]]].
  exists t, a. cbn [fst]. rewrite Hk. cbn. auto 10.
Qed.

Lemma alerts_for_trader_sound_witness :
  exists records,
    Neo4jServer.get_alerts_for_trader (Neo4jServer.store_session Samples.desk)
      "Ann Chen" 10 =
    Ok (VDict [("trader_name", VStr "Ann Chen");
               ("total_alerts", VInt (Z.of_nat (length records)));
               ("alerts", VList (map VDict records))]) /\
    map (dict_get "alert_id") records = [Some (VStr "A-101")].
Proof.
  destruct (alerts_for_trader_sound Samples.desk "Ann Chen" 10) as [r [Hr _]];
    [lia |].
  exists r. split; [exact Hr |].
  vm_compute in Hr. injection Hr as _ Hr.
  destruct r as [| r1 [| r2 r]]; cbn in Hr; try discriminate Hr.
  injection Hr as <-. reflexivity.
Defined.

Lemma alerts_by_type_matches_sound (s : Neo4jServer.Store) (ty : string)
    (k : Neo4jServer.type_alert_key) (v : option string) :
  In (k, v) (Neo4jServer.alerts_by_type_matches s ty) ->
  exists a com dis,
    In a (Neo4jServer.alerts s) /\
    Neo4jServer.alert_type (snd a) = ty /\
    k = (Neo4jServer.alert_id (snd a), Neo4jServer.created_date (snd a),
         Neo4jServer.status (snd a), com, dis).
Proof.
  unfold Neo4jServer.alerts_by_type_matches. intros Hin.
  apply in_flat_map in Hin. destruct Hin as [a [Ha Hin]].
  apply in_flat_map in Hin. destruct Hin as [w [_ Hin]].
  apply in_map_iff in Hin. destruct Hin as [t [Heq _]].
  injection Heq as <- _.
  apply filter_In in Ha. destruct Ha as [Ha Hty]. apply String.eqb_eq in Hty.
  exists a. eexists. eexists. repeat split; eauto.
Qed.

(** X14. [get_alerts_by_type] with limit N returns at most N records, in
    descending order of creation date, each showing an alert of the store
    whose type is exactly the requested one; so a type no alert has gives
    [total_alerts] 0.  It returns for every N that is not negative. *)
Theorem alerts_by_type_spec (s : Neo4jServer.Store) (misconduct_type : string)
    (N : Z) :
  match Neo4jServer.get_alerts_by_type (Neo4jServer.store_session s)
          misconduct_type N with
  | Ok payload =>
      exists records,
        payload = VDict [("misconduct_type", VStr misconduct_type);
                         ("total_alerts", VInt (Z.of_nat (length records)));
                         ("alerts", VList (map VDict records))] /\
        Z.of_nat (length records) <= N /\
        date_descending records /\
        (forall r, In r records ->
           exists a,
             In a (Neo4jServer.alerts s) /\
             Neo4jServer.alert_type (snd a) = misconduct_type /\
             dict_get "alert_id" r =
             Some (VStr (Neo4jServer.alert_id (snd a))) /\
             dict_get "created_date" r =
             Some (VInt (Neo4jServer.created_date (snd a)))) /\
        ((forall a, In a (Neo4jServer.alerts s) ->
            Neo4jServer.alert_type (snd a) <> misconduct_type) ->
         records = [])
  | Raise _ => N < 0
  end.
Proof.
  unfold Neo4jServer.get_alerts_by_type. cbv zeta.
  rewrite session_alerts_by_type. unfold Neo4jServer.limited.
  destruct (N <? 0) eqn:HN; cbn [rbind].
  - apply Z.ltb_lt. exact HN.
  - apply Z.ltb_ge in HN.
    assert (Hsound :
      forall r,
        In r (map Neo4jServer.type_alert_record
                (firstn (Z.to_nat N)
                   (Neo4jServer.alerts_by_type_groups s misconduct_type))) ->
        exists a,
          In a (Neo4jServer.alerts s) /\
          Neo4jServer.alert_type (snd a) = misconduct_type /\
          dict_get "alert_id" r = Some (VStr (Neo4jServer.alert_id (snd a))) /\
          dict_get "created_date" r =
          Some (VInt (Neo4jServer.created_date (snd a)))).
    { intros r Hr. apply in_map_iff in Hr. destruct Hr as [g [<- Hg]].
      apply firstn_In in Hg.
      unfold Neo4jServer.alerts_by_type_groups, Neo4jServer.by_date_desc in Hg.
      apply (Permutation_in _ (sort_perm _ _)) in Hg.
      apply in_map_iff in Hg. destruct Hg as [g0 [<- Hg0]].
      apply group_by_keys in Hg0. destruct Hg0 as [v Hv].
      apply alerts_by_type_matches_sound in Hv.
      destruct Hv as [a [com [dis [Ha [Hty Hk]]]]].
      exists a. cbn [fst]. rewrite Hk. cbn. auto. }
    eexists. split; [reflexivity |]. split; [| split; [| split]].
    + rewrite length_map. apply firstn_length_le_Z. exact HN.
    + unfold date_descending.
      apply StronglySorted_map
        with (R := fun x y => Neo4jServer.type_alert_date (fst y)
                              <= Neo4jServer.type_alert_date (fst x)).
      * intros [[[[[? ?] ?] ?] ?] ?] [[[[[? ?] ?] ?] ?] ?] H. exact H.
      * apply StronglySorted_firstn.
        apply (by_date_desc_sorted
                 (fun g => Neo4jServer.type_alert_date (fst g))).
    + exact Hsound.
    + intros Hnone.
      destruct (map Neo4jServer.type_alert_record _) as [| r rs] eqn:Hm;
        [reflexivity |].
      destruct (Hsound r (or_introl eq_refl)) as [a [Ha [Hty _]]].
      exfalso. exact (Hnone a Ha Hty).
Qed.

Lemma alert_workflow_matches_sound (s : Neo4jServer.Store) (id : string)
    (k : Neo4jServer.workflow_key) (v : option string * value) :
  In (k, v) (Neo4jServer.alert_workflow_matches s id) ->
  exists a com dis sup rev,
    In a (Neo4jServer.alerts s) /\
    Neo4jServer.alert_id (snd a) = id /\
    k = (Neo4jServer.alert_id (snd a), Neo4jServer.alert_type (snd a),
         Neo4jServer.created_date (snd a), Neo4jServer.status (snd a),
         com, dis, sup, rev).
Proof.
  unfold Neo4jServer.alert_workflow_matches. intros Hin.
  apply in_flat_map in Hin. destruct Hin as [a [Ha Hin]].
  apply in_flat_map in Hin. destruct Hin as [w [_ Hin]].
  apply in_flat_map in Hin. destruct Hin as [o [_ Hin]].
  apply in_map_iff in Hin. destruct Hin as [t [Heq _]].
  injection Heq as <- _.
  unfold Neo4jServer.alerts_with_id in Ha. apply filter_In in Ha.
  destruct Ha as [Ha Hid]. apply String.eqb_eq in Hid.
  exists a. do 4 eexists. repeat split; eauto.
Qed.

Lemma alert_workflow_matches_nonempty (s : Neo4jServer.Store) (id : string) :
  (exists a, In a (Neo4jServer.alerts s) /\
             Neo4jServer.alert_id (snd a) = id) ->
  Neo4jServer.alert_workflow_matches s id <> [].
Proof.
  intros [a [Ha Hid]]. unfold Neo4jServer.alert_workflow_matches.
  apply flat_map_nonempty.
  - intros Hnil.
    assert (Hin : In a (Neo4jServer.alerts_with_id s id)).
    { unfold Neo4jServer.alerts_with_id. apply filter_In.
      split; [exact Ha | apply String.eqb_eq; exact Hid]. }
    rewrite Hnil in Hin. destruct Hin.
  - intros a0. apply flat_map_nonempty; [apply optional_nonempty |].
    intros w. apply flat_map_nonempty; [apply optional_nonempty |].
    intros o. apply map_nonempty. apply optional_nonempty.
Qed.

(** X15. When an alert of the store carries the identifier,
    [get_alert_workflow] returns a record, not an error payload: the record
    has no [error] field and shows the identifier, type, creation date and
    status of an alert of the store that carries that identifier. *)
Theorem alert_workflow_found (s : Neo4jServer.Store) (id : string) :
  (exists a, In a (Neo4jServer.alerts s) /\
             Neo4jServer.alert_id (snd a) = id) ->
  exists record a,
    Neo4jServer.get_alert_workflow (Neo4jServer.store_session s) id =
    Ok (VDict record) /\
    dict_get "error" record = None /\
    In a (Neo4jServer.alerts s) /\
    Neo4jServer.alert_id (snd a) = id /\
    dict_get "alert_id" record = Some (VStr id) /\
    dict_get "alert_type" record =
    Some (VStr (Neo4jServer.alert_type (snd a))) /\
    dict_get "created_date" record =
    Some (VInt (Neo4jServer.created_date (snd a))) /\
    dict_get "status" record = Some (VStr (Neo4jServer.status (snd a))).
Proof.
  intros Hex. apply alert_workflow_matches_nonempty in Hex.
  unfold Neo4jServer.get_alert_workflow. cbv zeta.
  rewrite session_alert_workflow. cbn [rbind].
  destruct (Neo4jServer.alert_workflow_matches s id) as [| kv rows] eqn:Hm;
    [contradiction |].
  destruct (group_by_head kv rows) as [g [gs [Hg Hk]]].
  rewrite Hg. cbn [map Neo4jServer.single].
  assert (Hin : In (fst g, snd kv)
                  (Neo4jServer.alert_workflow_matches s id)).
  { rewrite Hm, Hk. left. destruct kv; reflexivity. }
  apply alert_workflow_matches_sound in Hin.
  destruct Hin as [a [com [dis [sup [rev [Ha [Hid Hkey]]]]]]].
  exists (Neo4jServer.workflow_record g), a.
  destruct g as [k vs]. cbn [fst] in Hkey. subst k. rewrite Hid.
  cbn. auto 10.
Qed.

Lemma alert_workflow_found_witness :
  exists record,
    Neo4jServer.get_alert_workflow (Neo4jServer.store_session Samples.desk)
      "A-101" = Ok (VDict record) /\
    dict_get "alert_id" record = Some (VStr "A-101") /\
    dict_get "error" record = None.
Proof.
  destruct (alert_workflow_found Samples.desk "A-101")
    as [record [a [Hr [He [_ [_ [Hid _]]]]]]].
  - exists (11%N, Neo4jServer.mkAlert "A-101" "wash_trading" 19810 "closed").
    split; [right; left; reflexivity | reflexivity].
  - exists record. auto.
Defined.

Example alert_workflow_a101 :
  Neo4jServer.get_alert_workflow (Neo4jServer.store_session Samples.desk)
    "A-101" =
  Ok (VDict [("alert_id", VStr "A-101"); ("alert_type", VStr "wash_trading");
             ("created_date", VInt 19810); ("status", VStr "closed");
             ("commentary", VStr "no intent found");
             ("disposition", VStr "dismissed");
             ("supervisor", VStr "J. Doe"); ("review_date", VInt 19812);
             ("traders", VList [VStr "Bill Lyons"; VStr "Ann Chen"]);
             ("orders",
              VList [VDict [("order_id", VNone); ("asset_type", VNone);
                            ("venue", VNone); ("quantity", VNone);
                            ("placed_time", VNone); ("cancelled_time", VNone);
                            ("executed_time", VNone); ("is_algo", VNone)]])]).
Proof. vm_compute. reflexivity. Qed.

(** ** The statement of [search_alerts_by_criteria] *)

(** X18. The limit is always bound.  With no criterion given the statement has
    no [WHERE] clause and [limit] is its only parameter; the text holds a
    [WHERE] clause exactly when a criterion is given; and each criterion
    given adds one bound parameter. *)
Theorem search_statement_where (sd ed ve at_ : option string)
    (ma : option spec_float) (l : Z) :
  let st := Neo4jServer.search_statement sd ed ve at_ ma l in
  let count (b : bool) := if b then 1%nat else 0%nat in
  dict_get "limit" (snd st) = Some (VInt l) /\
  str_in "WHERE" (fst st) =
  (given sd || given ed || given ve || given at_ || given_amount ma) /\
  (length (snd st) =
   1 + count (given sd) + count (given ed) + count (given ve) +
   count (given at_) + count (given_amount ma))%nat /\
  (given sd || given ed || given ve || given at_ || given_amount ma = false ->
   st = (Neo4jServer.search_query_head ++ Neo4jServer.search_query_tail,
         [("limit", VInt l)])).
Proof.
  cbv zeta. unfold given, given_amount.
  unfold Neo4jServer.search_statement, Neo4jServer.search_clauses_params,
    Neo4jServer.criterion.
  destruct (truthy (Neo4jServer.vstr sd)), (truthy (Neo4jServer.vstr ed)),
    (truthy (Neo4jServer.vstr ve)), (truthy (Neo4jServer.vstr at_)),
    (truthy (Neo4jServer.vfloat ma));
    (split; [reflexivity |]);
    (split; [vm_compute; reflexivity |]);
    (split; [reflexivity |]);
    intros H; try discriminate H; reflexivity.
Qed.

(** X19. A criterion that is [None], an empty string or a zero amount leaves
    the statement as if it had not been passed at all. *)
Theorem search_statement_ignores_empty (sd ed ve at_ : option string)
    (ma : option spec_float) (l : Z) :
  let keep (o : option string) := if given o then o else None in
  let keep_amount (o : option spec_float) :=
    if given_amount o then o else None in
  Neo4jServer.search_statement sd ed ve at_ ma l =
  Neo4jServer.search_statement (keep sd) (keep ed) (keep ve) (keep at_)
    (keep_amount ma) l.
Proof.
  cbv zeta. unfold given, given_amount.
  destruct sd as [[| ? ?] |], ed as [[| ? ?] |], ve as [[| ? ?] |],
    at_ as [[| ? ?] |], ma as [[? | ? | | ? ? ?] |]; reflexivity.
Qed.

Example search_statement_empty_venue :
  Neo4jServer.search_statement None None (Some "") None
    (Some (S754_zero false)) 20 =
  Neo4jServer.search_statement None None None None None 20.
Proof. reflexivity. Qed.

(** ** The REST tools: optional parameters and exceptions *)

(** X20. An optional filter passed as the empty string is dropped like one
    that is not passed: the request sent, and so the result, is the same. *)
Theorem rest_empty_filter_is_absent (api : RestServer.ApiService) :
  (forall limit,
     RestServer.get_real_time_alerts api (Some "") limit =
     RestServer.get_real_time_alerts api None limit) /\
  (forall symbol end_time,
     RestServer.get_market_data api symbol (Some "") end_time =
     RestServer.get_market_data api symbol None end_time) /\
  (forall symbol start_time,
     RestServer.get_market_data api symbol start_time (Some "") =
     RestServer.get_market_data api symbol start_time None) /\
  (forall alert_id disposition,
     RestServer.submit_alert_feedback api alert_id disposition (Some "") =
     RestServer.submit_alert_feedback api alert_id disposition None).
Proof.
  repeat split; intros; reflexivity.
Qed.

(** X21. None of the REST tools catches an exception.  When the HTTP
    session raises on the request of a tool, the tool raises the same
    exception; and when the response to its request has status 200 and a
    body that cannot be decoded, each of the three reading tools raises
    the decoding exception, while [submit_alert_feedback], which never
    decodes the body, reports success whatever the body is. *)
Theorem rest_exceptions_propagate (api : RestServer.ApiService) :
  (forall status_ limit e,
     alerts_response api status_ limit = Raise e ->
     RestServer.get_real_time_alerts api status_ limit = Raise e) /\
  (forall trader_id e,
     profile_response api trader_id = Raise e ->
     RestServer.get_trader_profile api trader_id = Raise e) /\
  (forall symbol start_time end_time e,
     market_response api symbol start_time end_time = Raise e ->
     RestServer.get_market_data api symbol start_time end_time = Raise e) /\
  (forall alert_id disposition commentary e,
     feedback_response api alert_id disposition commentary = Raise e ->
     RestServer.submit_alert_feedback api alert_id disposition commentary =
     Raise e) /\
  (forall status_ limit r e,
     alerts_response api status_ limit = Ok r ->
     status r = 200 -> json r = Raise e ->
     RestServer.get_real_time_alerts api status_ limit = Raise e) /\
  (forall trader_id r e,
     profile_response api trader_id = Ok r ->
     status r = 200 -> json r = Raise e ->
     RestServer.get_trader_profile api trader_id = Raise e) /\
  (forall symbol start_time end_time r e,
     market_response api symbol start_time end_time = Ok r ->
     status r = 200 -> json r = Raise e ->
     RestServer.get_market_data api symbol start_time end_time = Raise e) /\
  (forall alert_id disposition commentary r,
     feedback_response api alert_id disposition commentary = Ok r ->
     status r = 200 ->
     RestServer.submit_alert_feedback api alert_id disposition commentary =
     Ok (VDict [("success", VBool true);
                ("message", VStr "Feedback submitted")])).
Proof.
  split; [| split; [| split; [| split; [| split; [| split; [| split]]]]]].
  - intros status_ limit e Hr.
    rewrite get_real_time_alerts_request, Hr. reflexivity.
  - intros trader_id e Hr.
    rewrite get_trader_profile_request, Hr. reflexivity.
  - intros symbol start_time end_time e Hr.
    rewrite get_market_data_request, Hr. reflexivity.
  - intros alert_id disposition commentary e Hr.
    rewrite submit_alert_feedback_request, Hr. reflexivity.
  - intros status_ limit r e Hr Hs Hj.
    rewrite get_real_time_alerts_request, Hr. cbn [rbind].
    rewrite (status_eqb_200 r Hs). exact Hj.
  - intros trader_id r e Hr Hs Hj.
    rewrite get_trader_profile_request, Hr. cbn [rbind].
    rewrite (status_eqb_200 r Hs). exact Hj.
  - intros symbol start_time end_time r e Hr Hs Hj.
    rewrite get_market_data_request, Hr. cbn [rbind].
    rewrite (status_eqb_200 r Hs). exact Hj.
  - intros alert_id disposition commentary r Hr Hs.
    rewrite submit_alert_feedback_request, Hr. cbn [rbind].
    rewrite (status_eqb_200 r Hs). reflexivity.
Qed.

Lemma rest_exceptions_propagate_witness :
  RestServer.get_trader_profile Samples.api_down "Bill Lyons" =
  Raise (Exn "ClientConnectorError" "Cannot connect to host") /\
  RestServer.get_market_data Samples.api_routes "ACME" None None =
  Raise (Exn "ContentTypeError" "unexpected mimetype") /\
  RestServer.submit_alert_feedback
    (Samples.api_answering
       (Response 200 (Raise (Exn "ContentTypeError" "unexpected mimetype"))))
    "A-100" "dismissed" None =
  Ok (VDict [("success", VBool true); ("message", VStr "Feedback submitted")]).
Proof.
  split; [| split].
  - destruct (rest_exceptions_propagate Samples.api_down)
      as [_ [Hprofile _]].
    apply Hprofile. reflexivity.
  - destruct (rest_exceptions_propagate Samples.api_routes)
      as [_ [_ [_ [_ [_ [_ [Hmarket _]]]]]]].
    apply (Hmarket "ACME" None None
             (Response 200
                (Raise (Exn "ContentTypeError" "unexpected mimetype"))));
      reflexivity.
  - destruct (rest_exceptions_propagate
                (Samples.api_answering
                   (Response 200
                      (Raise (Exn "ContentTypeError" "unexpected mimetype")))))
      as [_ [_ [_ [_ [_ [_ [_ Hfeedback]]]]]]].
    apply (Hfeedback "A-100" "dismissed" None
             (Response 200
                (Raise (Exn "ContentTypeError" "unexpected mimetype"))));
      reflexivity.
Defined.

(** ** The stdio tool server *)

Section StdioServer.

Variable json_dumps : value -> result string.
Variable run : Neo4jServer.session.
Variable str_of : value -> string.

Let call_tool := McpServer.call_tool json_dumps run str_of.
Let dispatch := McpServer.dispatch run str_of.

(** X22. A name that [list_tools] does not declare is answered with the payload
    [{error: Unknown tool: <name>}], encoded as text, and the store is not
    consulted. *)
Theorem stdio_unknown_tool (name : string) (arguments : dict) :
  ~ In name (map McpServer.tool_name McpServer.list_tools) ->
  dispatch name arguments =
  Ok (VDict [("error", VStr ("Unknown tool: " ++ name))]) /\
  forall encoded,
    json_dumps (VDict [("error", VStr ("Unknown tool: " ++ name))]) =
    Ok encoded ->
    call_tool name arguments = [McpServer.mkText "text" encoded].
Proof.
  intros Hname. cbn in Hname.
  assert (Hd : dispatch name arguments =
               Ok (VDict [("error", VStr ("Unknown tool: " ++ name))])).
  { unfold dispatch, McpServer.dispatch.
    repeat match goal with
           | |- context [String.eqb name ?k] =>
               destruct (String.eqb_spec name k) as [-> | _];
                 [exfalso; apply Hname; tauto |]
           end.
    reflexivity. }
  split; [exact Hd |]. intros encoded He.
  unfold call_tool, McpServer.call_tool, McpServer.call_tool_try.
  fold dispatch. rewrite Hd. cbn [rbind]. rewrite He. reflexivity.
Qed.

(** X23. For a declared tool, a call that lacks a required argument is
    answered with the text [Error: '<argument>'], the rendering of the
    [KeyError]; the store is not consulted. *)
Theorem stdio_missing_argument (t : McpServer.Tool) (k : string)
    (arguments : dict) :
  In t McpServer.list_tools ->
  In k (required_of t) ->
  dict_get k arguments = None ->
  call_tool (McpServer.tool_name t) arguments =
  [McpServer.mkText "text" ("Error: '" ++ k ++ "'")].
Proof.
  unfold call_tool, McpServer.call_tool, McpServer.call_tool_try,
    McpServer.dispatch, McpServer.subscript.
  intros [<- | [<- | [<- | [<- | []]]]] [<- | []] Hk;
    cbn [McpServer.tool_name String.eqb Ascii.eqb Bool.eqb];
    rewrite Hk; reflexivity.
Qed.


(** X25. [call_tool] always answers with exactly one text content; an
    exception raised by the store, or by the encoder, becomes the text
    [Error: <message>]. *)
Theorem stdio_call_tool_envelope (name : string) (arguments : dict) :
  (exists encoded,
     call_tool name arguments = [McpServer.mkText "text" encoded]) /\
  (forall e, dispatch name arguments = Raise e ->
     call_tool name arguments =
     [McpServer.mkText "text" ("Error: " ++ exn_str e)]) /\
  (forall payload e, dispatch name arguments = Ok payload ->
     json_dumps payload = Raise e ->
     call_tool name arguments =
     [McpServer.mkText "text" ("Error: " ++ exn_str e)]).
Proof.
  unfold call_tool, McpServer.call_tool, McpServer.call_tool_try.
  fold dispatch. split; [| split].
  - destruct (dispatch name arguments) as [payload | e]; cbn [rbind].
    + destruct (json_dumps payload); eexists; reflexivity.
    + eexists. reflexivity.
  - intros e ->. reflexivity.
  - intros payload e -> He. cbn [rbind]. rewrite He. reflexivity.
Qed.

End StdioServer.

Lemma stdio_unknown_tool_witness :
  McpServer.call_tool Samples.encode_stub Samples.echo_session
    Samples.str_stub "get_market_data" [("symbol", VStr "ACME")] =
  [McpServer.mkText "text" "{}"].
Proof.
  apply (stdio_unknown_tool Samples.encode_stub Samples.echo_session
           Samples.str_stub "get_market_data" [("symbol", VStr "ACME")]).
  - cbn. intros [H | [H | [H | [H | []]]]]; discriminate H.
  - reflexivity.
Defined.

Lemma stdio_missing_argument_witness :
  McpServer.call_tool Samples.encode_stub Samples.echo_session
    Samples.str_stub "get_alerts_for_trader" [("limit", VInt 5)] =
  [McpServer.mkText "text" "Error: 'trader_name'"].
Proof.
  apply (stdio_missing_argument Samples.encode_stub Samples.echo_session
           Samples.str_stub (nth 0 McpServer.list_tools
                               (McpServer.mkTool "" "" VNone))
           "trader_name" [("limit", VInt 5)]).
  - left. reflexivity.
  - left. reflexivity.
  - reflexivity.
Defined.


(** ** Tool failures inside a run *)

(** X8. When the graph tool server cannot be reached, the trader branch still
    completes: both calls are made, and each result stored in
    [neo4j_data] is the payload [{error: Connection error: <message>}]. *)
Theorem fetch_neo4j_unreachable_server (self : Agent.SurveillanceAgent)
    (state : Agent.SurveillanceState) (tr : list Agent.rpc_call)
    (trader_name : string) (e : exn) :
  (forall url payload headers,
     Agent.session_post (Agent.neo4j_client self) url payload headers =
     Raise e) ->
  trader_branch (lower (Agent.query state)) = true ->
  Agent._extract_trader_name (lower (Agent.query state)) = trader_name ->
  trader_name <> "" ->
  let failure := VDict [("error", VStr ("Connection error: " ++ exn_str e))] in
  exists tr',
    Agent._fetch_neo4j_data self state tr =
    (Ok (Agent.set_neo4j_data [("alerts", failure); ("network", failure)]
           state), tr') /\
    length tr' = (length tr + 2)%nat.
Proof.
  intros Hdown Hb He Hne. cbv zeta.
  destruct (fetch_neo4j_with_name self state tr trader_name Hb He Hne)
    as [a [n [Ha [Hn Hrun]]]].
  rewrite (call_tool_transport_exception _ _ _ e (Hdown _ _ _)) in Ha.
  rewrite (call_tool_transport_exception _ _ _ e (Hdown _ _ _)) in Hn.
  injection Ha as <-. injection Hn as <-.
  eexists. split; [exact Hrun |].
  rewrite length_app. reflexivity.
Qed.

Lemma fetch_neo4j_unreachable_server_witness :
  exists tr',
    Agent._fetch_neo4j_data
      (Agent.Agent_ (fun _ => Ok "") Samples.unreachable Samples.answering)
      (Agent.initial_state "Network of trader Jones") [] =
    (Ok (Agent.set_neo4j_data
           [("alerts",
             VDict [("error", VStr "Connection error: Cannot connect to host")]);
            ("network",
             VDict [("error", VStr "Connection error: Cannot connect to host")])]
           (Agent.initial_state "Network of trader Jones")), tr') /\
    length tr' = 2%nat.
Proof.
  apply (fetch_neo4j_unreachable_server
           (Agent.Agent_ (fun _ => Ok "") Samples.unreachable Samples.answering)
           (Agent.initial_state "Network of trader Jones") [] "jones"
           (Exn "ClientConnectorError" "Cannot connect to host")).
  - intros. reflexivity.
  - reflexivity.
  - reflexivity.
  - discriminate.
Defined.

(** X5. The graph-fetch stage calls [get_alerts_by_type] only for a query that
    mentions none of "bill lyons", "trader" and "alerts": whenever the
    lowercased query contains one of them, no call of that tool is
    issued, whether or not it also mentions "spoofing" or "wash trading". *)
Theorem fetch_neo4j_by_type_needs_no_trader_words
    (self : Agent.SurveillanceAgent) (state : Agent.SurveillanceState)
    (tr : list Agent.rpc_call) :
  trader_branch (lower (Agent.query state)) = true ->
  exists d calls,
    Agent._fetch_neo4j_data self state tr =
    (Ok (Agent.set_neo4j_data d state), (tr ++ calls)%list) /\
    Forall (fun c => Agent.call_tool_name c <> "get_alerts_by_type") calls.
Proof.
  intros Hb.
  destruct (nonempty (Agent._extract_trader_name (lower (Agent.query state))))
    eqn:Hn.
  - destruct (fetch_neo4j_with_name self state tr _ Hb eq_refl)
      as [a [n [_ [_ Hrun]]]].
    + intros Heq. rewrite Heq in Hn. discriminate Hn.
    + eexists. eexists. split; [exact Hrun |].
      repeat constructor; discriminate.
  - exists (Agent.neo4j_data state), [].
    rewrite set_neo4j_data_same, app_nil_r. split; [| constructor].
    apply fetch_neo4j_no_trader_name; [exact Hb |].
    destruct (Agent._extract_trader_name (lower (Agent.query state)));
      [reflexivity | discriminate Hn].
Qed.

Lemma fetch_neo4j_by_type_needs_no_trader_words_witness :
  exists d calls,
    Agent._fetch_neo4j_data Samples.agent_ok
      (Agent.initial_state "Wash trading alerts for trader Jones") [] =
    (Ok (Agent.set_neo4j_data d
           (Agent.initial_state "Wash trading alerts for trader Jones")),
     ([] ++ calls)%list) /\
    Forall (fun c => Agent.call_tool_name c <> "get_alerts_by_type") calls.
Proof.
  apply (fetch_neo4j_by_type_needs_no_trader_words Samples.agent_ok
           (Agent.initial_state "Wash trading alerts for trader Jones") []).
  reflexivity.
Defined.
